(** * tse-checker: the stateful form navigation of [main_local.py]

  A shallow embedding of [get_tse_details_html], [check_fallecido] and the
  [/check] route.  The program talks to the outside world through a
  [requests.Session]; the embedding keeps that interaction explicit: the
  Python functions become terms of a small command monad [Prog], and an
  interpreter runs them against a store of session objects whose network
  behaviour is a parameter.

  What is modelled from libraries rather than from the repository:
  - Python [str]: a Rocq [string] holding the UTF-8 encoding of the text;
    [str.strip], [str.upper] and the splitting of a class attribute work
    on its code points with the tables of Unicode 14.0.0;
  - BeautifulSoup: the parse tree is an inductive type, [find] and
    [get_text] are functions on it, the parser from text to tree is a
    parameter;
  - requests: a session is an entry of a store, its [request] method is a
    parameter that may answer or raise.
  Console output ([print]) is kept as an event of the trace. *)

From Stdlib Require Import Ascii String QArith.
From stdpp Require Import base option list strings pretty gmap.

Set Warnings "-register-all".

Local Open Scope string_scope.
Local Open Scope Z_scope.
Local Open Scope list_scope.

(** ** Python strings *)

(** A Python [str] is a sequence of code points; a Rocq [string] holds its
    UTF-8 encoding.  [decode] reads the code points off the bytes and
    [encode] writes them back. *)
Module Utf8.

Definition is_continuation (n : N) : bool := ((128 <=? n) && (n <? 192))%N.

(** The first byte of a sequence: its payload and the number of bytes
    that follow.  A byte that starts no sequence stands for itself. *)
Definition lead (n : N) : N * nat :=
  (if n <? 192 then (n, 0%nat)
   else if n <? 224 then (n - 192, 1%nat)
   else if n <? 240 then (n - 224, 2%nat)
   else if n <? 248 then (n - 240, 3%nat)
   else (n, 0%nat))%N.

(** [acc] is the code point being read and [need] the number of bytes it
    still lacks. *)
Fixpoint decode_go (acc : N) (need : nat) (s : string) : list N :=
  match s with
  | EmptyString => match need with O => [] | S _ => [acc] end
  | String b s' =>
      let n := N_of_ascii b in
      match need with
      | S k =>
          if is_continuation n then
            let acc' := (acc * 64 + (n - 128))%N in
            match k with
            | O => acc' :: decode_go 0%N O s'
            | S _ => decode_go acc' k s'
            end
          else
            match lead n with
            | (a, O) => acc :: a :: decode_go 0%N O s'
            | (a, S m) => acc :: decode_go a (S m) s'
            end
      | O =>
          match lead n with
          | (a, O) => a :: decode_go 0%N O s'
          | (a, S m) => decode_go a (S m) s'
          end
      end
  end.

Definition decode (s : string) : list N := decode_go 0%N O s.

Definition byte (n : N) : string := String (ascii_of_N n) EmptyString.

Definition encode_cp (c : N) : string :=
  (if c <? 128 then byte c
   else if c <? 2048 then byte (192 + c / 64) +:+ byte (128 + c mod 64)
   else if c <? 65536 then
     byte (224 + c / 4096) +:+ byte (128 + (c / 64) mod 64)
     +:+ byte (128 + c mod 64)
   else
     byte (240 + c / 262144) +:+ byte (128 + (c / 4096) mod 64)
     +:+ byte (128 + (c / 64) mod 64) +:+ byte (128 + c mod 64))%N.

Definition encode (l : list N) : string :=
  foldr (λ c s, encode_cp c +:+ s) EmptyString l.

End Utf8.

(** The string methods the program calls, with the tables of the Unicode
    Character Database 14.0.0 as CPython 3.11 has them. *)
Module PyStr.

(** [str.isspace] of one code point: the 29 white space characters, which
    are also the ones [\s] matches. *)
Definition isspace (c : N) : bool :=
  ((9 <=? c) && (c <=? 13) || (28 <=? c) && (c <=? 32)
   || (c =? 133) || (c =? 160) || (c =? 5760)
   || (8192 <=? c) && (c <=? 8202)
   || (c =? 8232) || (c =? 8233) || (c =? 8239) || (c =? 8287)
   || (c =? 12288))%N.

Fixpoint lstrip (l : list N) : list N :=
  match l with
  | c :: l' => if isspace c then lstrip l' else l
  | [] => []
  end.

(** [rstrip] written by structural recursion: a character is dropped when
    it is a space and everything after it has been dropped. *)
Fixpoint rstrip (l : list N) : list N :=
  match l with
  | c :: l' =>
      match rstrip l' with
      | [] => if isspace c then [] else [c]
      | r => c :: r
      end
  | [] => []
  end.

(** [s.strip()]. *)
Definition strip (s : string) : string :=
  Utf8.encode (rstrip (lstrip (Utf8.decode s))).

(** The code points whose uppercase is one other code point, as runs
    [(first, last, stride, offset)]: a code point of the run, at a
    multiple of the stride from its first, moves by the offset. *)
Definition upper_runs : list (N * N * N * Z) :=
  [(97, 122, 1, (-32)%Z); (181, 181, 1, (743)%Z); (224, 246, 1, (-32)%Z);
   (248, 254, 1, (-32)%Z); (255, 255, 1, (121)%Z); (257, 303, 2, (-1)%Z);
   (305, 305, 1, (-232)%Z); (307, 311, 2, (-1)%Z); (314, 328, 2, (-1)%Z);
   (331, 375, 2, (-1)%Z); (378, 382, 2, (-1)%Z); (383, 383, 1, (-300)%Z);
   (384, 384, 1, (195)%Z); (387, 389, 2, (-1)%Z); (392, 392, 1, (-1)%Z);
   (396, 396, 1, (-1)%Z); (402, 402, 1, (-1)%Z); (405, 405, 1, (97)%Z);
   (409, 409, 1, (-1)%Z); (410, 410, 1, (163)%Z); (414, 414, 1, (130)%Z);
   (417, 421, 2, (-1)%Z); (424, 424, 1, (-1)%Z); (429, 429, 1, (-1)%Z);
   (432, 432, 1, (-1)%Z); (436, 438, 2, (-1)%Z); (441, 441, 1, (-1)%Z);
   (445, 445, 1, (-1)%Z); (447, 447, 1, (56)%Z); (453, 453, 1, (-1)%Z);
   (454, 454, 1, (-2)%Z); (456, 456, 1, (-1)%Z); (457, 457, 1, (-2)%Z);
   (459, 459, 1, (-1)%Z); (460, 460, 1, (-2)%Z); (462, 476, 2, (-1)%Z);
   (477, 477, 1, (-79)%Z); (479, 495, 2, (-1)%Z); (498, 498, 1, (-1)%Z);
   (499, 499, 1, (-2)%Z); (501, 501, 1, (-1)%Z); (505, 543, 2, (-1)%Z);
   (547, 563, 2, (-1)%Z); (572, 572, 1, (-1)%Z); (575, 576, 1, (10815)%Z);
   (578, 578, 1, (-1)%Z); (583, 591, 2, (-1)%Z); (592, 592, 1, (10783)%Z);
   (593, 593, 1, (10780)%Z); (594, 594, 1, (10782)%Z);
   (595, 595, 1, (-210)%Z); (596, 596, 1, (-206)%Z);
   (598, 599, 1, (-205)%Z); (601, 601, 1, (-202)%Z);
   (603, 603, 1, (-203)%Z); (604, 604, 1, (42319)%Z);
   (608, 608, 1, (-205)%Z); (609, 609, 1, (42315)%Z);
   (611, 611, 1, (-207)%Z); (613, 613, 1, (42280)%Z);
   (614, 614, 1, (42308)%Z); (616, 616, 1, (-209)%Z);
   (617, 617, 1, (-211)%Z); (618, 618, 1, (42308)%Z);
   (619, 619, 1, (10743)%Z); (620, 620, 1, (42305)%Z);
   (623, 623, 1, (-211)%Z); (625, 625, 1, (10749)%Z);
   (626, 626, 1, (-213)%Z); (629, 629, 1, (-214)%Z);
   (637, 637, 1, (10727)%Z); (640, 640, 1, (-218)%Z);
   (642, 642, 1, (42307)%Z); (643, 643, 1, (-218)%Z);
   (647, 647, 1, (42282)%Z); (648, 648, 1, (-218)%Z);
   (649, 649, 1, (-69)%Z); (650, 651, 1, (-217)%Z); (652, 652, 1, (-71)%Z);
   (658, 658, 1, (-219)%Z); (669, 669, 1, (42261)%Z);
   (670, 670, 1, (42258)%Z); (837, 837, 1, (84)%Z); (881, 883, 2, (-1)%Z);
   (887, 887, 1, (-1)%Z); (891, 893, 1, (130)%Z); (940, 940, 1, (-38)%Z);
   (941, 943, 1, (-37)%Z); (945, 961, 1, (-32)%Z); (962, 962, 1, (-31)%Z);
   (963, 971, 1, (-32)%Z); (972, 972, 1, (-64)%Z); (973, 974, 1, (-63)%Z);
   (976, 976, 1, (-62)%Z); (977, 977, 1, (-57)%Z); (981, 981, 1, (-47)%Z);
   (982, 982, 1, (-54)%Z); (983, 983, 1, (-8)%Z); (985, 1007, 2, (-1)%Z);
   (1008, 1008, 1, (-86)%Z); (1009, 1009, 1, (-80)%Z);
   (1010, 1010, 1, (7)%Z); (1011, 1011, 1, (-116)%Z);
   (1013, 1013, 1, (-96)%Z); (1016, 1016, 1, (-1)%Z);
   (1019, 1019, 1, (-1)%Z); (1072, 1103, 1, (-32)%Z);
   (1104, 1119, 1, (-80)%Z); (1121, 1153, 2, (-1)%Z);
   (1163, 1215, 2, (-1)%Z); (1218, 1230, 2, (-1)%Z);
   (1231, 1231, 1, (-15)%Z); (1233, 1327, 2, (-1)%Z);
   (1377, 1414, 1, (-48)%Z); (4304, 4346, 1, (3008)%Z);
   (4349, 4351, 1, (3008)%Z); (5112, 5117, 1, (-8)%Z);
   (7296, 7296, 1, (-6254)%Z); (7297, 7297, 1, (-6253)%Z);
   (7298, 7298, 1, (-6244)%Z); (7299, 7300, 1, (-6242)%Z);
   (7301, 7301, 1, (-6243)%Z); (7302, 7302, 1, (-6236)%Z);
   (7303, 7303, 1, (-6181)%Z); (7304, 7304, 1, (35266)%Z);
   (7545, 7545, 1, (35332)%Z); (7549, 7549, 1, (3814)%Z);
   (7566, 7566, 1, (35384)%Z); (7681, 7829, 2, (-1)%Z);
   (7835, 7835, 1, (-59)%Z); (7841, 7935, 2, (-1)%Z);
   (7936, 7943, 1, (8)%Z); (7952, 7957, 1, (8)%Z); (7968, 7975, 1, (8)%Z);
   (7984, 7991, 1, (8)%Z); (8000, 8005, 1, (8)%Z); (8017, 8023, 2, (8)%Z);
   (8032, 8039, 1, (8)%Z); (8048, 8049, 1, (74)%Z);
   (8050, 8053, 1, (86)%Z); (8054, 8055, 1, (100)%Z);
   (8056, 8057, 1, (128)%Z); (8058, 8059, 1, (112)%Z);
   (8060, 8061, 1, (126)%Z); (8112, 8113, 1, (8)%Z);
   (8126, 8126, 1, (-7205)%Z); (8144, 8145, 1, (8)%Z);
   (8160, 8161, 1, (8)%Z); (8165, 8165, 1, (7)%Z);
   (8526, 8526, 1, (-28)%Z); (8560, 8575, 1, (-16)%Z);
   (8580, 8580, 1, (-1)%Z); (9424, 9449, 1, (-26)%Z);
   (11312, 11359, 1, (-48)%Z); (11361, 11361, 1, (-1)%Z);
   (11365, 11365, 1, (-10795)%Z); (11366, 11366, 1, (-10792)%Z);
   (11368, 11372, 2, (-1)%Z); (11379, 11379, 1, (-1)%Z);
   (11382, 11382, 1, (-1)%Z); (11393, 11491, 2, (-1)%Z);
   (11500, 11502, 2, (-1)%Z); (11507, 11507, 1, (-1)%Z);
   (11520, 11557, 1, (-7264)%Z); (11559, 11559, 1, (-7264)%Z);
   (11565, 11565, 1, (-7264)%Z); (42561, 42605, 2, (-1)%Z);
   (42625, 42651, 2, (-1)%Z); (42787, 42799, 2, (-1)%Z);
   (42803, 42863, 2, (-1)%Z); (42874, 42876, 2, (-1)%Z);
   (42879, 42887, 2, (-1)%Z); (42892, 42892, 1, (-1)%Z);
   (42897, 42899, 2, (-1)%Z); (42900, 42900, 1, (48)%Z);
   (42903, 42921, 2, (-1)%Z); (42933, 42947, 2, (-1)%Z);
   (42952, 42954, 2, (-1)%Z); (42961, 42961, 1, (-1)%Z);
   (42967, 42969, 2, (-1)%Z); (42998, 42998, 1, (-1)%Z);
   (43859, 43859, 1, (-928)%Z); (43888, 43967, 1, (-38864)%Z);
   (65345, 65370, 1, (-32)%Z); (66600, 66639, 1, (-40)%Z);
   (66776, 66811, 1, (-40)%Z); (66967, 67003, 2, (-39)%Z);
   (66968, 66976, 2, (-39)%Z); (66980, 66992, 2, (-39)%Z);
   (66996, 67000, 2, (-39)%Z); (67004, 67004, 1, (-39)%Z);
   (68800, 68850, 1, (-64)%Z); (71872, 71903, 1, (-32)%Z);
   (93792, 93823, 1, (-32)%Z); (125218, 125251, 1, (-34)%Z)]%N.

(** The code points whose uppercase is several code points. *)
Definition upper_special : list (N * list N) :=
  [(223, [83; 83]); (329, [700; 78]); (496, [74; 780]);
   (912, [921; 776; 769]); (944, [933; 776; 769]); (1415, [1333; 1362]);
   (7830, [72; 817]); (7831, [84; 776]); (7832, [87; 778]);
   (7833, [89; 778]); (7834, [65; 702]); (8016, [933; 787]);
   (8018, [933; 787; 768]); (8020, [933; 787; 769]);
   (8022, [933; 787; 834]); (8064, [7944; 921]); (8065, [7945; 921]);
   (8066, [7946; 921]); (8067, [7947; 921]); (8068, [7948; 921]);
   (8069, [7949; 921]); (8070, [7950; 921]); (8071, [7951; 921]);
   (8072, [7944; 921]); (8073, [7945; 921]); (8074, [7946; 921]);
   (8075, [7947; 921]); (8076, [7948; 921]); (8077, [7949; 921]);
   (8078, [7950; 921]); (8079, [7951; 921]); (8080, [7976; 921]);
   (8081, [7977; 921]); (8082, [7978; 921]); (8083, [7979; 921]);
   (8084, [7980; 921]); (8085, [7981; 921]); (8086, [7982; 921]);
   (8087, [7983; 921]); (8088, [7976; 921]); (8089, [7977; 921]);
   (8090, [7978; 921]); (8091, [7979; 921]); (8092, [7980; 921]);
   (8093, [7981; 921]); (8094, [7982; 921]); (8095, [7983; 921]);
   (8096, [8040; 921]); (8097, [8041; 921]); (8098, [8042; 921]);
   (8099, [8043; 921]); (8100, [8044; 921]); (8101, [8045; 921]);
   (8102, [8046; 921]); (8103, [8047; 921]); (8104, [8040; 921]);
   (8105, [8041; 921]); (8106, [8042; 921]); (8107, [8043; 921]);
   (8108, [8044; 921]); (8109, [8045; 921]); (8110, [8046; 921]);
   (8111, [8047; 921]); (8114, [8122; 921]); (8115, [913; 921]);
   (8116, [902; 921]); (8118, [913; 834]); (8119, [913; 834; 921]);
   (8124, [913; 921]); (8130, [8138; 921]); (8131, [919; 921]);
   (8132, [905; 921]); (8134, [919; 834]); (8135, [919; 834; 921]);
   (8140, [919; 921]); (8146, [921; 776; 768]); (8147, [921; 776; 769]);
   (8150, [921; 834]); (8151, [921; 776; 834]); (8162, [933; 776; 768]);
   (8163, [933; 776; 769]); (8164, [929; 787]); (8166, [933; 834]);
   (8167, [933; 776; 834]); (8178, [8186; 921]); (8179, [937; 921]);
   (8180, [911; 921]); (8182, [937; 834]); (8183, [937; 834; 921]);
   (8188, [937; 921]); (64256, [70; 70]); (64257, [70; 73]);
   (64258, [70; 76]); (64259, [70; 70; 73]); (64260, [70; 70; 76]);
   (64261, [83; 84]); (64262, [83; 84]); (64275, [1348; 1350]);
   (64276, [1348; 1333]); (64277, [1348; 1339]); (64278, [1358; 1350]);
   (64279, [1348; 1341])]%N.

Definition in_run (c : N) (run : N * N * N * Z) : bool :=
  let '(first, last, stride, _) := run in
  ((first <=? c) && (c <=? last) && ((c - first) mod stride =? 0))%N.

(** The uppercase of one code point: the full mapping, without context. *)
Definition upper_cp (c : N) : list N :=
  match List.find (λ sp, (sp.1 =? c)%N) upper_special with
  | Some sp => sp.2
  | None =>
      match List.find (in_run c) upper_runs with
      | Some (_, _, _, offset) => [Z.to_N (Z.of_N c + offset)]
      | None => [c]
      end
  end.

(** [s.upper()]: character by character. *)
Definition upper (s : string) : string :=
  Utf8.encode (flat_map upper_cp (Utf8.decode s)).

Definition concat (l : list string) : string :=
  foldr String.append EmptyString l.

(** Truth value of a string: empty is false. *)
Definition truthy (s : string) : bool :=
  match s with EmptyString => false | _ => true end.

(** The maximal runs of characters that are not spaces, in order
    ([str.split()] without argument, the regular expression [\S+]).
    [cur] is the run being read. *)
Fixpoint split_go (cur : list N) (l : list N) : list (list N) :=
  match l with
  | [] => match cur with [] => [] | _ => [cur] end
  | c :: l' =>
      if isspace c
      then match cur with [] => [] | _ => [cur] end ++ split_go [] l'
      else split_go (cur ++ [c]) l'
  end.

Definition split (s : string) : list string :=
  Utf8.encode <$> split_go [] (Utf8.decode s).

End PyStr.

(** ** The BeautifulSoup tree *)

Module Soup.

(** A node is a text string ([NavigableString]), a string that
    [get_text] leaves out (comment, doctype, declaration), or a tag with
    its attribute dictionary and its children in document order. *)
Inductive Node : Type :=
| Text (s : string)
| Special (s : string)
| Tag (name : string) (attrs : list (string * string)) (children : list Node).

(** A [Tag] object as [find] returns it. *)
Record Element : Type := mkElement {
  el_name : string;
  el_attrs : list (string * string);
  el_children : list Node
}.

(** The document: the children of the root [BeautifulSoup] object. *)
Definition Document : Type := list Node.

(** [tag.attrs.get(key)]: the first binding of the key. *)
Fixpoint attr_get (key : string) (attrs : list (string * string)) : option string :=
  match attrs with
  | [] => None
  | (k, v) :: rest => if String.eqb k key then Some v else attr_get key rest
  end.

(** One tag matches [find(name, {attr: value})] when it has that name and
    carries the attribute with exactly that value. *)
Definition matches (name attr value : string)
    (n : string) (attrs : list (string * string)) : bool :=
  String.eqb n name &&
  match attr_get attr attrs with
  | Some v => String.eqb v value
  | None => false
  end.

(** [find]: the first matching tag among the descendants, in document
    order (a tag before its children, children left to right). *)
Fixpoint find_node (name attr value : string) (n : Node) : option Element :=
  match n with
  | Text _ | Special _ => None
  | Tag nm attrs children =>
      if matches name attr value nm attrs
      then Some (mkElement nm attrs children)
      else
        (fix find_list (l : list Node) : option Element :=
           match l with
           | [] => None
           | c :: rest =>
               match find_node name attr value c with
               | Some e => Some e
               | None => find_list rest
               end
           end) children
  end.

Fixpoint find (name attr value : string) (d : Document) : option Element :=
  match d with
  | [] => None
  | n :: rest =>
      match find_node name attr value n with
      | Some e => Some e
      | None => find name attr value rest
      end
  end.

(** The text strings below a node, in document order. *)
Fixpoint strings_of (n : Node) : list string :=
  match n with
  | Text s => [s]
  | Special _ => []
  | Tag _ _ children =>
      (fix strings_list (l : list Node) : list string :=
         match l with
         | [] => []
         | c :: rest => strings_of c ++ strings_list rest
         end) children
  end.

Definition all_strings (e : Element) : list string :=
  flat_map strings_of (el_children e).

(** [tag.get_text()]: all the text strings joined. *)
Definition get_text (e : Element) : string :=
  PyStr.concat (all_strings e).

(** [tag.get_text(strip=True)]: every text string is stripped on its own,
    the ones that become empty are skipped, the rest are joined. *)
Definition get_text_strip (e : Element) : string :=
  PyStr.concat (filter (fun s => PyStr.truthy s = true)
                       (map PyStr.strip (all_strings e))).

(** The tags at and below a node, in document order: the order in which
    [find_all] visits them and in which [next_elements] runs. *)
Fixpoint elements_of (n : Node) : list Element :=
  match n with
  | Text _ | Special _ => []
  | Tag nm attrs children =>
      mkElement nm attrs children ::
      (fix elements_list (l : list Node) : list Element :=
         match l with
         | [] => []
         | c :: rest => elements_of c ++ elements_list rest
         end) children
  end.

Definition descendants (d : Document) : list Element :=
  flat_map elements_of d.

(** [class_=cls] for a class name without space: the parser splits the
    [class] attribute at white space and the filter asks for one of the
    pieces to be [cls]. *)
Definition has_class (cls : string) (attrs : list (string * string)) : bool :=
  match attr_get "class" attrs with
  | Some v => bool_decide (cls ∈ PyStr.split v)
  | None => false
  end.

Definition is_tag (name : string) (e : Element) : bool :=
  String.eqb (el_name e) name.

End Soup.

(** ** Exceptions *)

(** The exceptions the program can meet.  The first four are
    [requests.RequestException] and its subclasses; [KeyError] comes from
    [tag['value']] on a tag without that attribute; [OtherError] stands for
    any other subclass of [Exception] (a parser failure, for one). *)
Inductive Exception : Type :=
| ConnectionError (msg : string)
| Timeout (msg : string)
| HTTPError (msg : string)
| RequestException (msg : string)
| KeyError (key : string)
| OtherError (msg : string).

(** [isinstance(e, requests.RequestException)]. *)
Definition is_request_exception (e : Exception) : bool :=
  match e with
  | ConnectionError _ | Timeout _ | HTTPError _ | RequestException _ => true
  | KeyError _ | OtherError _ => false
  end.

(** [str(e)]; a [KeyError] prints the [repr] of its key. *)
Definition str (e : Exception) : string :=
  match e with
  | ConnectionError m | Timeout m | HTTPError m | RequestException m
  | OtherError m => m
  | KeyError k => "'" +:+ k +:+ "'"
  end.

(** ** requests: requests, responses, adapters *)

Inductive Method : Type := GET | POST.

(** What [session.get(url)] and [session.post(url, data=...)] hand to the
    session: the form fields in dictionary order and the [timeout] keyword,
    [None] when the caller gives none. *)
Record Request : Type := mkRequest {
  req_method : Method;
  req_url : string;
  req_data : list (string * string);
  req_timeout : option Q
}.

Record Response : Type := mkResponse {
  status_code : Z;
  reason : string;
  resp_url : string;
  content : string;
  text : string
}.

(** [urllib3.util.retry.Retry]: the counters the program sets or leaves at
    their defaults. *)
Record Retry : Type := mkRetry {
  retry_total : option nat;
  retry_connect : option nat;
  backoff_factor : Q
}.

Record HTTPAdapter : Type := mkHTTPAdapter { max_retries : Retry }.

(** [HTTPAdapter()] as [requests.Session()] mounts it: no retries. *)
Definition default_adapter : HTTPAdapter :=
  mkHTTPAdapter (mkRetry (Some 0%nat) None 0%Q).

Definition handle : Type := nat.

Definition Outcome : Type := (Exception + Response)%type.

(** [response.raise_for_status()]. *)
Definition raise_for_status (r : Response) : Exception + unit :=
  if (400 <=? status_code r) && (status_code r <? 500) then
    inl (HTTPError (pretty (status_code r) +:+ " Client Error: " +:+ reason r
                    +:+ " for url: " +:+ resp_url r))
  else if (500 <=? status_code r) && (status_code r <? 600) then
    inl (HTTPError (pretty (status_code r) +:+ " Server Error: " +:+ reason r
                    +:+ " for url: " +:+ resp_url r))
  else inr ().

(** ** The command monad *)

(** A program either ends ([Ret], [Raise]) or performs one effect and goes
    on: a line on the console, the construction of a session, mounting an
    adapter on a session, one [request] call on a session. *)
Inductive Prog (A : Type) : Type :=
| Ret (a : A)
| Raise (e : Exception)
| Print (line : string) (k : Prog A)
| NewSession (k : handle → Prog A)
| Mount (h : handle) (prefix : string) (a : HTTPAdapter) (k : Prog A)
| Send (h : handle) (req : Request) (k : Outcome → Prog A).

Arguments Ret {A} a.
Arguments Raise {A} e.
Arguments Print {A} line k.
Arguments NewSession {A} k.
Arguments Mount {A} h prefix a k.
Arguments Send {A} h req k.

Fixpoint bind {A B : Type} (p : Prog A) (f : A → Prog B) : Prog B :=
  match p with
  | Ret a => f a
  | Raise e => Raise e
  | Print line k => Print line (bind k f)
  | NewSession k => NewSession (λ h, bind (k h) f)
  | Mount h prefix a k => Mount h prefix a (bind k f)
  | Send h req k => Send h req (λ o, bind (k o) f)
  end.

#[export] Instance Prog_ret : MRet Prog := @Ret.
#[export] Instance Prog_bind : MBind Prog := λ A B f p, bind p f.

(** [try: p except Exception as e: handler e]. *)
Fixpoint try_except {A : Type} (p : Prog A) (handler : Exception → Prog A) : Prog A :=
  match p with
  | Ret a => Ret a
  | Raise e => handler e
  | Print line k => Print line (try_except k handler)
  | NewSession k => NewSession (λ h, try_except (k h) handler)
  | Mount h prefix a k => Mount h prefix a (try_except k handler)
  | Send h req k => Send h req (λ o, try_except (k o) handler)
  end.

(** A pure step that may raise. *)
Definition lift {A : Type} (r : Exception + A) : Prog A :=
  match r with
  | inl e => Raise e
  | inr a => Ret a
  end.

Definition print (line : string) : Prog unit := Print line (Ret ()).
Definition new_session : Prog handle := NewSession Ret.
Definition mount (h : handle) (prefix : string) (a : HTTPAdapter) : Prog unit :=
  Mount h prefix a (Ret ()).

(** [session.get(url)] and [session.post(url, data=data)]: neither passes
    a [timeout]. *)
Definition session_get (h : handle) (url : string) : Prog Response :=
  Send h (mkRequest GET url [] None) lift.
Definition session_post (h : handle) (url : string)
    (data : list (string * string)) : Prog Response :=
  Send h (mkRequest POST url data None) lift.

(** ** The program *)

(** JSON-like values of the result dictionaries. *)
Inductive Value : Type :=
| VBool (b : bool)
| VStr (s : string).

#[export] Instance Value_eq_dec : EqDecision Value.
Proof. solve_decision. Defined.

Definition base_url : string := "https://servicioselectorales.tse.go.cr/chc".
Definition search_url : string := base_url +:+ "/consulta_cedula.aspx".
Definition result_url : string := base_url +:+ "/resultado_persona.aspx".

(** [tag['value'] if tag else ''], for [tag] the result of a [find]: a tag
    object is always true; subscripting raises [KeyError] when the
    attribute is missing. *)
Definition value_or_empty (tag : option Soup.Element) : Exception + string :=
  match tag with
  | Some t =>
      match Soup.attr_get "value" (Soup.el_attrs t) with
      | Some v => inr v
      | None => inl (KeyError "value")
      end
  | None => inr EmptyString
  end.

(** Lines 38-46 and 64-72: the three finds, then the dictionary of the
    three hidden fields, built in this order. *)
Definition hidden_fields (soup : Soup.Document) : Exception + list (string * string) :=
  let viewstate := Soup.find "input" "name" "__VIEWSTATE" soup in
  let viewstategenerator := Soup.find "input" "name" "__VIEWSTATEGENERATOR" soup in
  let eventvalidation := Soup.find "input" "name" "__EVENTVALIDATION" soup in
  match value_or_empty viewstate with
  | inl e => inl e
  | inr v1 =>
      match value_or_empty viewstategenerator with
      | inl e => inl e
      | inr v2 =>
          match value_or_empty eventvalidation with
          | inl e => inl e
          | inr v3 =>
              inr [("__VIEWSTATE", v1); ("__VIEWSTATEGENERATOR", v2);
                   ("__EVENTVALIDATION", v3)]
          end
      end
  end.

Definition search_data (cedula : string) (hidden : list (string * string)) :
    list (string * string) :=
  [("txtcedula", cedula); ("btnConsultaCedula", "Consultar")] ++ hidden.

Definition details_data (new_hidden : list (string * string)) :
    list (string * string) :=
  [("__EVENTTARGET", "LinkButton11"); ("__EVENTARGUMENT", EmptyString)] ++ new_hidden.

(** The two [except] clauses of [get_tse_details_html]: print, re-raise. *)
Definition reraise {A : Type} (e : Exception) : Prog A :=
  if is_request_exception e
  then Print ("Error during request: " +:+ str e) (Raise e)
  else Print ("Error processing response: " +:+ str e) (Raise e).

(** The line the matching clause prints. *)
Definition reraise_line (e : Exception) : string :=
  if is_request_exception e then "Error during request: " +:+ str e
  else "Error processing response: " +:+ str e.

Definition retry : Retry := mkRetry (Some 10%nat) (Some 3%nat) (1 # 2)%Q.
Definition adapter : HTTPAdapter := mkHTTPAdapter retry.

Section Program.

(** [BeautifulSoup(markup, 'html.parser')]: from text to tree, or an
    exception. *)
Variable BeautifulSoup : string → Exception + Soup.Document.

(** The [try] body of [get_tse_details_html], lines 30-91. *)
Definition navigate (session : handle) (cedula : string) : Prog string :=
  print ("Step 1: Fetching initial form from " +:+ search_url);;
  response ← session_get session search_url;
  lift (raise_for_status response);;
  soup ← lift (BeautifulSoup (content response));
  hidden ← lift (hidden_fields soup);
  print ("Step 2: Searching for cedula " +:+ cedula);;
  response ← session_post session search_url (search_data cedula hidden);
  lift (raise_for_status response);;
  print "Step 3: Parsing results page";;
  soup ← lift (BeautifulSoup (content response));
  new_hidden ← lift (hidden_fields soup);
  print "Step 4: Clicking 'Ver Más Detalles' link";;
  response ← session_post session result_url (details_data new_hidden);
  lift (raise_for_status response);;
  print "Step 5: Retrieved detailed information page";;
  mret (text response).

Definition get_tse_details_html (cedula : string) : Prog string :=
  session ← new_session;
  mount session "http://" adapter;;
  mount session "https://" adapter;;
  try_except (navigate session cedula) reraise.

(** What [get_tse_details_html] does once it holds its session. *)
Definition with_session (cedula : string) (session : handle) : Prog string :=
  mount session "http://" adapter;;
  mount session "https://" adapter;;
  try_except (navigate session cedula) reraise.

(** Lines 113-125 of [parse_details_from_html].  [find_all('td',
    class_='label')] walks the tags in document order; for each label cell
    [find_next('td')] is the first [td] after it in that order, its own
    descendants included; a later label with the same text overwrites the
    entry. *)
Definition is_label (e : Soup.Element) : bool :=
  Soup.is_tag "td" e && Soup.has_class "label" (Soup.el_attrs e).

Fixpoint collect_details (elements : list Soup.Element)
    (details : gmap string string) : gmap string string :=
  match elements with
  | [] => details
  | label :: rest =>
      if is_label label then
        match List.find (Soup.is_tag "td") rest with
        | Some next_td =>
            collect_details rest
              (<[Soup.get_text_strip label := Soup.get_text_strip next_td]> details)
        | None => collect_details rest details
        end
      else collect_details rest details
  end.

Definition parse_details (soup : Soup.Document) : gmap string string :=
  collect_details (Soup.descendants soup) ∅.

Definition parse_details_from_html (html_content : string) :
    Exception + gmap string string :=
  match BeautifulSoup html_content with
  | inl e => inl e
  | inr soup => inr (parse_details soup)
  end.

(** The [/] route. *)
Definition home : Prog (gmap string Value * Z) :=
  mret ({[ "message" := VStr "TSE Cedula Checker API";
           "usage" := VStr "GET /check?cedula=<cedula_number>";
           "example" := VStr "/check?cedula=102920417" ]}, 200).

(** Lines 143-157: the status element and its reading. *)
Definition read_fallecido (cedula : string) (soup : Soup.Document) :
    gmap string Value :=
  match Soup.find "span" "id" "lblfallecido" soup with
  | Some fallecido_span =>
      let fallecido_value := PyStr.upper (Soup.get_text_strip fallecido_span) in
      if String.eqb fallecido_value "SI" then
        {[ "fallecido" := VBool true; "cedula" := VStr cedula ]}
      else if String.eqb fallecido_value "NO" then
        {[ "fallecido" := VBool false; "cedula" := VStr cedula ]}
      else
        {[ "error" := VStr ("Unknown value for Fallecido/a: " +:+ fallecido_value) ]}
  | None =>
      {[ "error" := VStr "Could not find 'lblfallecido' element in HTML" ]}
  end.

Definition check_fallecido (cedula : string) : Prog (gmap string Value) :=
  try_except
    (html_content ← get_tse_details_html cedula;
     soup ← lift (BeautifulSoup html_content);
     mret (read_fallecido cedula soup))
    (λ e, mret {[ "error" := VStr (str e) ]}).

(** [request.args.get(key)] on the query pairs in the order they were
    given: the first value of the key, if any. *)
Fixpoint args_get (key : string) (args : list (string * string)) : option string :=
  match args with
  | [] => None
  | (k, v) :: rest => if String.eqb k key then Some v else args_get key rest
  end.

(** The [/check] route: the JSON body and the status code. *)
Definition check_cedula (args : list (string * string)) :
    Prog (gmap string Value * Z) :=
  match args_get "cedula" args with
  | Some (String c s as cedula) =>
      result ← check_fallecido cedula;
      if decide (is_Some (result !! "error")) then mret (result, 500)
      else mret (result, 200)
  | Some EmptyString | None =>
      mret ({[ "error" := VStr "Missing 'cedula' parameter" ]}, 400)
  end.

End Program.

(** ** Running a program *)

(** What an observer of the process sees, in order. *)
Inductive Event : Type :=
| EvPrint (line : string)
| EvSession (h : handle)
| EvMount (h : handle) (prefix : string) (a : HTTPAdapter)
| EvSend (h : handle) (req : Request) (out : Outcome).

(** The network calls of a trace. *)
Definition network_calls (tr : list Event) : list (handle * Request * Outcome) :=
  omap (λ ev, match ev with
              | EvSend h req out => Some (h, req, out)
              | _ => None
              end) tr.

Definition requests_of (tr : list Event) : list Request :=
  (λ c, c.1.2) <$> network_calls tr.

(** The lines a trace writes on the console. *)
Definition printed (tr : list Event) : list string :=
  omap (λ ev, match ev with EvPrint line => Some line | _ => None end) tr.

(** A console line or a request, as it shows in a trace: the line, or
    the method and the address. *)
Definition event_kind (ev : Event) : option (string + Method * string) :=
  match ev with
  | EvPrint line => Some (inl line)
  | EvSend _ req _ => Some (inr (req_method req, req_url req))
  | EvSession _ | EvMount _ _ _ => None
  end.

(** The lines and the requests of a navigation that runs to its end, in
    the order of the source. *)
Definition navigation_script (cedula : string) : list (string + Method * string) :=
  [inl ("Step 1: Fetching initial form from " +:+ search_url);
   inr (GET, search_url);
   inl ("Step 2: Searching for cedula " +:+ cedula);
   inr (POST, search_url);
   inl "Step 3: Parsing results page";
   inl "Step 4: Clicking 'Ver Más Detalles' link";
   inr (POST, result_url);
   inl "Step 5: Retrieved detailed information page"].

(** The progress lines of a navigation, in order. *)
Definition step_lines (cedula : string) : list string :=
  ["Step 1: Fetching initial form from " +:+ search_url;
   "Step 2: Searching for cedula " +:+ cedula;
   "Step 3: Parsing results page";
   "Step 4: Clicking 'Ver Más Detalles' link";
   "Step 5: Retrieved detailed information page"].

(** The sessions a trace constructs. *)
Definition sessions_made (tr : list Event) : list handle :=
  omap (λ ev, match ev with EvSession h => Some h | _ => None end) tr.

Section Transport.

(** The state behind one session object (cookies, pooled connections and,
    for a mock, the position in its script), and what a call of its
    [request] method does: a new state and a response or an exception.  The
    mounted adapters are visible to it.  [connect n] is the state the n-th
    session of the process starts in. *)
Variable T : Type.
Variable send : gmap string HTTPAdapter → T → Request → T * Outcome.
Variable connect : nat → T.

Record Session : Type := mkSession {
  adapters : gmap string HTTPAdapter;
  conn : T
}.

(** The store of session objects; a handle is an index into it. *)
Abbreviation World := (list Session).

(** [requests.Session()]: both schemes on the default adapter. *)
Definition fresh_session (n : nat) : Session :=
  mkSession {[ "https://" := default_adapter; "http://" := default_adapter ]}
            (connect n).

Definition Result (A : Type) : Type := (list Event * World * (Exception + A))%type.

(** One effect of a program, on the store.  [None]: the program has ended,
    or it names a session that does not exist. *)
Definition step {A : Type} (p : Prog A) (w : World) : option (Event * World * Prog A) :=
  match p with
  | Ret _ | Raise _ => None
  | Print line k => Some (EvPrint line, w, k)
  | NewSession k =>
      let h := length w in
      Some (EvSession h, w ++ [fresh_session h], k h)
  | Mount h prefix a k =>
      s ← w !! h;
      Some (EvMount h prefix a,
            <[h := mkSession (<[prefix := a]> (adapters s)) (conn s)]> w, k)
  | Send h req k =>
      s ← w !! h;
      let '(c, out) := send (adapters s) (conn s) req in
      Some (EvSend h req out, <[h := mkSession (adapters s) c]> w, k out)
  end.

(** A program run to its end. *)
Fixpoint run {A : Type} (p : Prog A) (w : World) : option (Result A) :=
  match p with
  | Ret a => Some ([], w, inr a)
  | Raise e => Some ([], w, inl e)
  | Print line k =>
      '(tr, w', r) ← run k w;
      Some (EvPrint line :: tr, w', r)
  | NewSession k =>
      let h := length w in
      '(tr, w', r) ← run (k h) (w ++ [fresh_session h]);
      Some (EvSession h :: tr, w', r)
  | Mount h prefix a k =>
      s ← w !! h;
      '(tr, w', r) ← run k (<[h := mkSession (<[prefix := a]> (adapters s)) (conn s)]> w);
      Some (EvMount h prefix a :: tr, w', r)
  | Send h req k =>
      s ← w !! h;
      let '(c, out) := send (adapters s) (conn s) req in
      '(tr, w', r) ← run (k out) (<[h := mkSession (adapters s) c]> w);
      Some (EvSend h req out :: tr, w', r)
  end.

End Transport.

Arguments mkSession {T} adapters conn.
Arguments adapters {T} s.
Arguments conn {T} s.
Arguments step {T} send connect {A} p w.
Arguments run {T} send connect {A} p w.
Arguments fresh_session {T} connect n.

Abbreviation World T := (list (Session T)).

(** ** Programs that keep to one session *)

(** [owns o p]: with [o = None] the program has no session yet and, some
    lines on the console apart, starts by constructing one; with
    [o = Some h] every session effect of [p] is on [h] and no further
    session is constructed. *)
Inductive owns {A : Type} : option handle → Prog A → Prop :=
| owns_ret h a : owns (Some h) (Ret a)
| owns_raise h e : owns (Some h) (Raise e)
| owns_print o line k : owns o k → owns o (Print line k)
| owns_new k : (∀ h, owns (Some h) (k h)) → owns None (NewSession k)
| owns_mount h prefix a k : owns (Some h) k → owns (Some h) (Mount h prefix a k)
| owns_send h req k : (∀ out, owns (Some h) (k out)) → owns (Some h) (Send h req k).

(** A thread of the process: a program and what it owns in the store
    [w]; a session it owns is there. *)
Definition thread_ok {T A : Type} (w : list T) (o : option handle) (p : Prog A) : Prop :=
  owns o p ∧ match o with Some h => is_Some (w !! h) | None => True end.

(** A program without session effects. *)
Inductive pure {A : Type} : Prog A → Prop :=
| pure_ret a : pure (Ret a)
| pure_raise e : pure (Raise e)
| pure_print line k : pure k → pure (Print line k).

Section Local.

Context {T : Type}.
Variable send : gmap string HTTPAdapter → T → Request → T * Outcome.
Variable connect : nat → T.

(** The run of a program as seen from the one session [h] it owns, whose
    state is [s]: every session effect lands on [s].  It agrees with [run]
    on the programs that own [h] ([run_owned] below), and is used for them
    only; such a program constructs no session, and on a constructor
    [exec] just hands [h] back. *)
Fixpoint exec {A : Type} (h : handle) (s : Session T) (p : Prog A) :
    list Event * Session T * (Exception + A) :=
  match p with
  | Ret a => ([], s, inr a)
  | Raise e => ([], s, inl e)
  | Print line k =>
      let '(tr, s', r) := exec h s k in (EvPrint line :: tr, s', r)
  | NewSession k => exec h s (k h)
  | Mount _ prefix a k =>
      let '(tr, s', r) :=
        exec h (mkSession (<[prefix := a]> (adapters s)) (conn s)) k in
      (EvMount h prefix a :: tr, s', r)
  | Send _ req k =>
      let '(c, out) := send (adapters s) (conn s) req in
      let '(tr, s', r) := exec h (mkSession (adapters s) c) (k out) in
      (EvSend h req out :: tr, s', r)
  end.

End Local.

(** ** Two lookups at once *)

Section Interleaving.

Context {T : Type}.
Variable send : gmap string HTTPAdapter → T → Request → T * Outcome.
Variable connect : nat → T.

(** Two programs of one process share the store.  A schedule says whose
    effect comes next ([true]: the first program); a program that has
    ended lets its turn pass. *)
Fixpoint interleave {A B : Type} (sched : list bool) (w : World T)
    (p1 : Prog A) (p2 : Prog B) : World T * Prog A * Prog B :=
  match sched with
  | [] => (w, p1, p2)
  | true :: rest =>
      match step send connect p1 w with
      | Some (_, w', p1') => interleave rest w' p1' p2
      | None => interleave rest w p1 p2
      end
  | false :: rest =>
      match step send connect p2 w with
      | Some (_, w', p2') => interleave rest w' p1 p2'
      | None => interleave rest w p1 p2
      end
  end.

(** The schedule first; what is left of the two programs then runs to the
    end, the first before the second.  The two results. *)
Definition concurrently {A B : Type} (sched : list bool) (w : World T)
    (p1 : Prog A) (p2 : Prog B) : option ((Exception + A) * (Exception + B)) :=
  let '(w1, q1, q2) := interleave sched w p1 p2 in
  '(_, w2, r1) ← run send connect q1 w1;
  '(_, _, r2) ← run send connect q2 w2;
  Some (r1, r2).

(** The result of a program run alone from a store. *)
Definition result_of {A : Type} (p : Prog A) (w : World T) : option (Exception + A) :=
  (λ x, x.2) <$> run send connect p w.

(** [alone w o p h r]: the thread [p], run alone, has result [r] on the
    session [h]: the session it owns, or else the one it will get in any
    store that has [h] sessions before it. *)
Definition alone {A : Type} (w : World T) (o : option handle) (p : Prog A)
    (h : handle) (r : Exception + A) : Prop :=
  match o with
  | Some h' => h = h' ∧ result_of p w = Some r
  | None => (length w ≤ h)%nat ∧ ∀ wa : World T, length wa = h → result_of p wa = Some r
  end.

End Interleaving.

(** ** The vocabulary of the specification *)

(** The outcome of a lookup, and the dictionary that stands for it. *)
Inductive LookupResult : Type :=
| Deceased (b : bool) (identifier : string)
| Failure (reason : string).

Definition as_lookup_result (d : gmap string Value) : option LookupResult :=
  match d !! "error", d !! "fallecido", d !! "cedula" with
  | Some (VStr m), None, _ => Some (Failure m)
  | None, Some (VBool b), Some (VStr c) => Some (Deceased b c)
  | _, _, _ => None
  end.

(** The three requests of the navigation, given the tokens they carry. *)
Definition step1_request : Request := mkRequest GET search_url [] None.
Definition step2_request (cedula : string) (tokens : list (string * string)) : Request :=
  mkRequest POST search_url
    ([("txtcedula", cedula); ("btnConsultaCedula", "Consultar")] ++ tokens) None.
Definition step3_request (tokens : list (string * string)) : Request :=
  mkRequest POST result_url
    ([("__EVENTTARGET", "LinkButton11"); ("__EVENTARGUMENT", EmptyString)] ++ tokens) None.

(** The request that follows step [i + 1] (counting from 0). *)
Definition next_request (cedula : string) (i : nat) (tokens : list (string * string)) :
    Request :=
  match i with
  | O => step2_request cedula tokens
  | _ => step3_request tokens
  end.

(** The StateTokenSet of a page: the three named slots, each with the
    value of the first input of that name, empty when the page has no such
    input. *)
Definition token_value (name : string) (soup : Soup.Document) : string :=
  match Soup.find "input" "name" name soup with
  | Some t => default EmptyString (Soup.attr_get "value" (Soup.el_attrs t))
  | None => EmptyString
  end.

Definition state_tokens (soup : Soup.Document) : list (string * string) :=
  [("__VIEWSTATE", token_value "__VIEWSTATE" soup);
   ("__VIEWSTATEGENERATOR", token_value "__VIEWSTATEGENERATOR" soup);
   ("__EVENTVALIDATION", token_value "__EVENTVALIDATION" soup)].

(** A token set with every value empty. *)
Definition all_empty (tokens : list (string * string)) : bool :=
  forallb (λ kv, negb (PyStr.truthy kv.2)) tokens.

Definition is_failure {A : Type} (r : Exception + A) : Prop :=
  match r with inl _ => True | inr _ => False end.

(** Trim then uppercase, on the whole text of the element. *)
Definition normalized_text (e : Soup.Element) : string :=
  PyStr.upper (PyStr.strip (Soup.get_text e)).

Definition carries_timeout (req : Request) : Prop := is_Some (req_timeout req).

(** In the tags [els] of a document, the tag at position [i] is a label
    cell with text [k], and the first [td] after it has text [v]. *)
Definition filled_label (els : list Soup.Element) (i : nat) (k v : string) : Prop :=
  ∃ label next_td,
    els !! i = Some label
    ∧ is_label label = true
    ∧ Soup.get_text_strip label = k
    ∧ List.find (Soup.is_tag "td") (drop (S i) els) = Some next_td
    ∧ Soup.get_text_strip next_td = v.

(** The two shapes of a result dictionary. *)
Definition success_shape (cedula : string) (d : gmap string Value) : Prop :=
  (∃ b, d !! "fallecido" = Some (VBool b))
  ∧ d !! "cedula" = Some (VStr cedula)
  ∧ d !! "error" = None.

Definition failure_shape (d : gmap string Value) : Prop :=
  is_Some (d !! "error") ∧ d !! "fallecido" = None.

Section Protocol.

Variable BeautifulSoup : string → Exception + Soup.Document.

(** What the navigator takes from the response of step 1 or 2: the status
    check, the parse, the three hidden fields. *)
Definition response_tokens (r : Response) : Exception + list (string * string) :=
  match raise_for_status r with
  | inl e => inl e
  | inr _ =>
      match BeautifulSoup (content r) with
      | inl e => inl e
      | inr soup => hidden_fields soup
      end
  end.

(** Step 1 or 2 fails with [e]: the call raises, or its response is
    refused on the way to the tokens. *)
Definition step_fails (o : Outcome) (e : Exception) : Prop :=
  o = inl e ∨ ∃ r, o = inr r ∧ response_tokens r = inl e.

(** Step 3 fails with [e]: the call raises, or the status is an error. *)
Definition last_step_fails (o : Outcome) (e : Exception) : Prop :=
  o = inl e ∨ ∃ r, o = inr r ∧ raise_for_status r = inl e.

(** The network calls of one navigation on session [h], with its result:
    the three requests in order, each carrying the tokens of the response
    before it, cut short at the first failing step. *)
Inductive follows_protocol (h : handle) (cedula : string) :
    list (handle * Request * Outcome) → Exception + string → Prop :=
| fp_fail1 o1 e :
    step_fails o1 e →
    follows_protocol h cedula [(h, step1_request, o1)] (inl e)
| fp_fail2 r1 t0 o2 e :
    response_tokens r1 = inr t0 →
    step_fails o2 e →
    follows_protocol h cedula
      [(h, step1_request, inr r1); (h, step2_request cedula t0, o2)] (inl e)
| fp_fail3 r1 t0 r2 t1 o3 e :
    response_tokens r1 = inr t0 →
    response_tokens r2 = inr t1 →
    last_step_fails o3 e →
    follows_protocol h cedula
      [(h, step1_request, inr r1); (h, step2_request cedula t0, inr r2);
       (h, step3_request t1, o3)] (inl e)
| fp_done r1 t0 r2 t1 r3 :
    response_tokens r1 = inr t0 →
    response_tokens r2 = inr t1 →
    raise_for_status r3 = inr () →
    follows_protocol h cedula
      [(h, step1_request, inr r1); (h, step2_request cedula t0, inr r2);
       (h, step3_request t1, inr r3)] (inr (text r3)).

(** The response of step 1 or 2 is accepted, with page [soup]: its status
    is no error, its content parses to [soup], and each of the three
    inputs that is there has a value. *)
Definition accepted (r : Response) (soup : Soup.Document) : Prop :=
  raise_for_status r = inr ()
  ∧ BeautifulSoup (content r) = inr soup
  ∧ ∀ name t,
      name ∈ ["__VIEWSTATE"; "__VIEWSTATEGENERATOR"; "__EVENTVALIDATION"] →
      Soup.find "input" "name" name soup = Some t →
      is_Some (Soup.attr_get "value" (Soup.el_attrs t)).

(** The exchanges of one navigation on session [h], with its result: the
    GET of the search page; the POST of the search page with the
    identifier, the submit token and the StateTokenSet of the first page;
    the POST of the result page with the event target, the empty argument
    and the StateTokenSet of the second page.  The sequence is cut after
    the first step that fails, and the result is then its exception. *)
Inductive exchanges (h : handle) (cedula : string) :
    list (handle * Request * Outcome) → Exception + string → Prop :=
| ex_fail1 o1 e :
    step_fails o1 e →
    exchanges h cedula [(h, step1_request, o1)] (inl e)
| ex_fail2 r1 soup1 o2 e :
    accepted r1 soup1 →
    step_fails o2 e →
    exchanges h cedula
      [(h, step1_request, inr r1);
       (h, step2_request cedula (state_tokens soup1), o2)] (inl e)
| ex_fail3 r1 soup1 r2 soup2 o3 e :
    accepted r1 soup1 →
    accepted r2 soup2 →
    last_step_fails o3 e →
    exchanges h cedula
      [(h, step1_request, inr r1);
       (h, step2_request cedula (state_tokens soup1), inr r2);
       (h, step3_request (state_tokens soup2), o3)] (inl e)
| ex_done r1 soup1 r2 soup2 r3 :
    accepted r1 soup1 →
    accepted r2 soup2 →
    raise_for_status r3 = inr () →
    exchanges h cedula
      [(h, step1_request, inr r1);
       (h, step2_request cedula (state_tokens soup1), inr r2);
       (h, step3_request (state_tokens soup2), inr r3)] (inr (text r3)).

(** The rule of the specification for empty tokens, on one run: when the
    response of step 1 or 2 yields an all-empty set, the run stops there
    with a failure. *)
Definition aborts_on_empty_tokens
    (calls : list (handle * Request * Outcome)) (r : Exception + string) : Prop :=
  ∀ i h req resp tokens,
    (i < 2)%nat →
    calls !! i = Some (h, req, inr resp) →
    response_tokens resp = inr tokens →
    all_empty tokens = true →
    length calls = S i ∧ is_failure r.

End Protocol.

(** ** A scripted transport, for concrete runs *)

Module Mock.

(** The session answers from a script, one entry per call, and refuses the
    connection once the script is used up. *)
Definition send (_ : gmap string HTTPAdapter) (script : list Outcome) (_ : Request) :
    list Outcome * Outcome :=
  match script with
  | out :: rest => (rest, out)
  | [] => ([], inl (ConnectionError "connection refused"))
  end.

Definition ok (url body : string) : Outcome :=
  inr (mkResponse 200 "OK" url body body).

(** A parser that knows a few pages, one tree each, and reads an empty
    document in any other text. *)
Fixpoint parser (pages : list (string * Soup.Document)) (markup : string) :
    Exception + Soup.Document :=
  match pages with
  | [] => inr []
  | (m, d) :: rest => if String.eqb m markup then inr d else parser rest markup
  end.

Definition hidden_input (name value : string) : Soup.Node :=
  Soup.Tag "input" [("type", "hidden"); ("name", name); ("value", value)] [].

Definition form_page (a b c : string) : Soup.Document :=
  [Soup.Tag "form" []
     [hidden_input "__VIEWSTATE" a; hidden_input "__VIEWSTATEGENERATOR" b;
      hidden_input "__EVENTVALIDATION" c]].

Definition status_page (nodes : list Soup.Node) : Soup.Document :=
  [Soup.Tag "table" [] [Soup.Tag "span" [("id", "lblfallecido")] nodes]].

(** A site whose search form carries the three tokens, whose result page
    carries no hidden input at all, and whose details page says SI. *)
Definition pages : list (string * Soup.Document) :=
  [("<form>", form_page "dDwtMTA4" "CA0B0334" "/wEWBAK");
   ("<result>", [Soup.Tag "p" [] [Soup.Text "Sin resultados"]]);
   ("<details>", status_page [Soup.Text " SI "])].

Definition script : list Outcome :=
  [ok search_url "<form>"; ok search_url "<result>"; ok result_url "<details>"].

Definition BeautifulSoup : string → Exception + Soup.Document := parser pages.

Definition connect (_ : nat) : list Outcome := script.

(** One lookup of the navigator on this site, from an empty store. *)
Definition lookup_run : option (Result (list Outcome) string) :=
  run send connect (get_tse_details_html BeautifulSoup "102920417") [].

Definition trace : list Event :=
  match lookup_run with Some (tr, _, _) => tr | None => [] end.

Definition final_store : World (list Outcome) :=
  match lookup_run with Some (_, w, _) => w | None => [] end.

Definition no_tokens : list (string * string) :=
  [("__VIEWSTATE", EmptyString); ("__VIEWSTATEGENERATOR", EmptyString);
   ("__EVENTVALIDATION", EmptyString)].

(** A details page: one table row per pair, a label cell and a value
    cell. *)
Definition detail_row (lv : string * string) : Soup.Node :=
  Soup.Tag "tr" []
    [Soup.Tag "td" [("class", "label")] [Soup.Text lv.1];
     Soup.Tag "td" [] [Soup.Text lv.2]].

Definition details_table (rows : list (string * string)) : Soup.Document :=
  [Soup.Tag "table" [] (detail_row <$> rows)].

(** What is in an optional run. *)
Definition trace_of {A : Type} (x : option (Result (list Outcome) A)) : list Event :=
  match x with Some (tr, _, _) => tr | None => [] end.

Definition store_of {A : Type} (x : option (Result (list Outcome) A)) :
    World (list Outcome) :=
  match x with Some (_, w, _) => w | None => [] end.

(** A site that answers the search with 404. *)
Definition not_found (url : string) : Outcome :=
  inr (mkResponse 404 "Not Found" url "<error>" "<error>").

Definition refused_run : option (Result (list Outcome) string) :=
  run send (λ _, [ok search_url "<form>"; not_found search_url])
      (get_tse_details_html BeautifulSoup "102920417") [].

(** A site whose search form has its state input without a value. *)
Definition novalue_page : Soup.Document :=
  [Soup.Tag "form" [] [Soup.Tag "input" [("type", "hidden"); ("name", "__VIEWSTATE")] []]].

Definition novalue_run : option (Result (list Outcome) (gmap string Value)) :=
  run send (λ _, [ok search_url "<form>"])
      (check_fallecido (parser [("<form>", novalue_page)]) "102920417") [].

(** One lookup through the facade on the scripted site. *)
Definition facade_run : option (Result (list Outcome) (gmap string Value)) :=
  run send connect (check_fallecido BeautifulSoup "102920417") [].

(** A details page with a repeated label and a label without value. *)
Definition details_page : Soup.Document :=
  details_table [("Nombre:", " ANA "); ("Fallecido/a:", "NO"); ("Nombre:", "ANA MARIA")]
  ++ [Soup.Tag "td" [("class", "label big")] [Soup.Text "Notas:"]].

(** A status element whose text is split over nested markup. *)
Definition nested_status : Soup.Document :=
  status_page [Soup.Text "S"; Soup.Tag "b" [] [Soup.Text " I"]].

End Mock.

(** * Properties *)

(** ** Strings and trees *)

Example strip_SI : PyStr.strip "  SI " = "SI".
Proof. reflexivity. Qed.

Example upper_si : PyStr.upper "si" = "SI".
Proof. reflexivity. Qed.

Example strip_keeps_inner : PyStr.strip " a  b " = "a  b".
Proof. reflexivity. Qed.

Lemma append_empty s : s +:+ EmptyString = s.
Proof. induction s as [|a s IH]; [done|]. unfold String.app in *. cbn. by rewrite IH. Qed.

Lemma concat_singleton s : PyStr.concat [s] = s.
Proof. unfold PyStr.concat. cbn. apply append_empty. Qed.

(** On an element whose content is one text string, [get_text(strip=True)]
    is [strip] of that string. *)
Lemma get_text_strip_single name attrs s :
  Soup.get_text_strip (Soup.mkElement name attrs [Soup.Text s]) = PyStr.strip s.
Proof.
  unfold Soup.get_text_strip, Soup.all_strings.
  change (flat_map _ _) with ([s] ++ []). rewrite app_nil_r.
  change (map PyStr.strip [s]) with [PyStr.strip s].
  destruct (PyStr.strip s) as [|a t] eqn:E.
  - reflexivity.
  - rewrite filter_cons_True by done. rewrite filter_nil. apply concat_singleton.
Qed.

(** ** The interpreter *)

Section RunFacts.

Context {T : Type}.
Variable send : gmap string HTTPAdapter → T → Request → T * Outcome.
Variable connect : nat → T.

Local Abbreviation run := (run send connect).
Local Abbreviation exec := (exec send).
Local Abbreviation step := (step send connect).

Lemma lookup_snoc {A} (w : list A) x : (w ++ [x]) !! length w = Some x.
Proof. by apply list_lookup_middle. Qed.

Lemma insert_snoc {A} (w : list A) x y : <[length w := y]> (w ++ [x]) = w ++ [y].
Proof. rewrite insert_app_r_alt; [|lia]. by rewrite Nat.sub_diag. Qed.

(** A run is a step and the run of what is left. *)
Lemma run_step {A} (p : Prog A) w ev w1 p1 :
  step p w = Some (ev, w1, p1) →
  run p w = '(tr, w2, r) ← run p1 w1; Some (ev :: tr, w2, r).
Proof.
  destruct p; cbn; intros H; simplify_eq; try done.
  - destruct (w !! h) as [s|]; simplify_eq/=. done.
  - destruct (w !! h) as [s|]; simplify_eq/=.
    destruct (send _ _ _) as [c out]. by simplify_eq.
Qed.

Lemma run_bind {A B} (p : Prog A) (f : A → Prog B) w :
  run (bind p f) w =
    match run p w with
    | Some (tr, w1, inr a) =>
        '(tr2, w2, r) ← run (f a) w1; Some (tr ++ tr2, w2, r)
    | Some (tr, w1, inl e) => Some (tr, w1, inl e)
    | None => None
    end.
Proof.
  revert w. induction p as [a|e|line k IH|k IH|h prefix a k IH|h req k IH];
    intros w; cbn; try (destruct (w !! h); cbn; [|done]);
    try destruct (send _ _ _) as [c out]; try rewrite IH;
    repeat case_match; simplify_eq/=; try done.
  all: by destruct (run (f _) _) as [[[??]?]|].
Qed.

Lemma run_try_except {A} (p : Prog A) (hd : Exception → Prog A) w :
  run (try_except p hd) w =
    match run p w with
    | Some (tr, w1, inl e) =>
        '(tr2, w2, r) ← run (hd e) w1; Some (tr ++ tr2, w2, r)
    | Some (tr, w1, inr a) => Some (tr, w1, inr a)
    | None => None
    end.
Proof.
  revert w. induction p as [a|e|line k IH|k IH|h prefix a k IH|h req k IH];
    intros w; cbn; try (destruct (w !! h); cbn; [|done]);
    try destruct (send _ _ _) as [c out]; try rewrite IH;
    repeat case_match; simplify_eq/=; try done.
  all: by destruct (run (hd _) _) as [[[??]?]|].
Qed.

(** On a program that owns [h], [run] is [exec] on the state of [h]; the
    other sessions of the store are left as they are. *)
Lemma run_owned {A} (p : Prog A) h :
  owns (Some h) p → ∀ w s, w !! h = Some s →
  run p w = Some (let '(tr, s', r) := exec h s p in (tr, <[h := s']> w, r)).
Proof.
  intros Ho. remember (Some h) as o eqn:Eo.
  induction Ho as [h' a|h' e|o line k Hk IH| |h' prefix a k Hk IH|h' req k Hk IH];
    intros w s Hs; simplify_eq; cbn.
  - by rewrite list_insert_id.
  - by rewrite list_insert_id.
  - rewrite (IH eq_refl w s Hs). by destruct (exec h s k) as [[??]?].
  - rewrite Hs. cbn.
    erewrite IH; [|done|apply list_lookup_insert_eq; by eapply lookup_lt_Some].
    destruct (exec _ _ k) as [[??]?]. cbn. by rewrite list_insert_insert_eq.
  - rewrite Hs. cbn. destruct (send _ _ _) as [c out].
    erewrite IH; [|done|apply list_lookup_insert_eq; by eapply lookup_lt_Some].
    destruct (exec _ _ (k out)) as [[??]?]. cbn. by rewrite list_insert_insert_eq.
Qed.

(** A program that constructs its session first: the session is a new
    entry at the end of the store. *)
Lemma run_new {A} (k : handle → Prog A) w :
  (∀ h, owns (Some h) (k h)) →
  run (NewSession k) w =
    Some (let '(tr, s', r) := exec (length w) (fresh_session connect (length w)) (k (length w)) in
          (EvSession (length w) :: tr, w ++ [s'], r)).
Proof.
  intros Hk. cbn. erewrite run_owned; [|done|apply lookup_snoc].
  destruct (exec _ _ _) as [[??]?]. cbn. by rewrite insert_snoc.
Qed.

End RunFacts.

(** ** Ownership of the program's sessions *)

Lemma owns_bind {A B} o (p : Prog A) (f : A → Prog B) :
  owns o p → (∀ a h, owns (Some h) (f a)) → owns o (bind p f).
Proof.
  intros Hp Hf. induction Hp; cbn; try (constructor; auto). apply Hf.
Qed.

Lemma owns_try_except {A} o (p : Prog A) (hd : Exception → Prog A) :
  owns o p → (∀ e h, owns (Some h) (hd e)) → owns o (try_except p hd).
Proof.
  intros Hp Hf. induction Hp; cbn; try (constructor; auto). apply Hf.
Qed.

Lemma pure_owns {A} (p : Prog A) h : pure p → owns (Some h) p.
Proof. induction 1; by constructor. Qed.

Lemma pure_lift {A} (r : Exception + A) : pure (lift r).
Proof. destruct r; constructor. Qed.

Lemma pure_reraise {A} e : pure (@reraise A e).
Proof. unfold reraise. destruct (is_request_exception e); repeat constructor. Qed.

(** ** The navigation *)

Lemma reraise_eq {A} e : @reraise A e = Print (reraise_line e) (Raise e).
Proof. unfold reraise, reraise_line. by destruct (is_request_exception e). Qed.

Section Navigation.

Variable BeautifulSoup : string → Exception + Soup.Document.
Context {T : Type}.
Variable send : gmap string HTTPAdapter → T → Request → T * Outcome.
Variable connect : nat → T.

Local Abbreviation run := (run send connect).
Local Abbreviation exec := (exec send).

Local Abbreviation with_session := (with_session BeautifulSoup).

Lemma get_tse_details_html_unfold cedula :
  get_tse_details_html BeautifulSoup cedula = NewSession (with_session cedula).
Proof. reflexivity. Qed.

Lemma owns_bind_lift {A B} h (x : Exception + A) (f : A → Prog B) :
  (∀ a, owns (Some h) (f a)) → owns (Some h) (bind (lift x) f).
Proof. intros Hf. destruct x; cbn; [constructor|apply Hf]. Qed.

Lemma owns_navigate h cedula : owns (Some h) (navigate BeautifulSoup h cedula).
Proof.
  unfold navigate. cbn.
  repeat first
    [ apply owns_print | apply owns_send; intros ? | apply owns_ret
    | apply owns_bind_lift; intros ? ]; cbn.
Qed.

Lemma owns_with_session cedula h : owns (Some h) (with_session cedula h).
Proof.
  change (owns (Some h)
            (Mount h "http://" adapter
               (Mount h "https://" adapter
                  (try_except (navigate BeautifulSoup h cedula) reraise)))).
  do 2 apply owns_mount.
  apply owns_try_except; [apply owns_navigate|].
  intros e o'. apply pure_owns, pure_reraise.
Qed.

Lemma owns_get_tse_details_html cedula :
  owns None (get_tse_details_html BeautifulSoup cedula).
Proof. apply owns_new. intros h. apply owns_with_session. Qed.

Lemma owns_check_fallecido cedula :
  owns None (check_fallecido BeautifulSoup cedula).
Proof.
  unfold check_fallecido. apply owns_try_except.
  - apply owns_bind; [apply owns_get_tse_details_html|].
    intros html o'. apply pure_owns.
    change (pure (bind (lift (BeautifulSoup html))
                       (λ soup, Ret (read_fallecido cedula soup)))).
    destruct (BeautifulSoup html); constructor.
  - intros e o'. constructor.
Qed.

Ltac nav_step :=
  cbn;
  match goal with
  | |- context [send ?a ?b ?c] =>
      let H := fresh "Hsend" in destruct (send a b c) as [? [?|?]] eqn:H
  | |- context [raise_for_status ?r] =>
      let H := fresh "Hst" in destruct (raise_for_status r) as [?|[]] eqn:H
  | |- context [BeautifulSoup ?m] =>
      let H := fresh "Hbs" in destruct (BeautifulSoup m) as [?|?] eqn:H
  | |- context [hidden_fields ?d] =>
      let H := fresh "Hhf" in destruct (hidden_fields d) as [?|?] eqn:H
  | |- context [@reraise ?A ?e] => rewrite (@reraise_eq A e)
  end.

Ltac rew_hyps :=
  repeat match goal with
         | H : raise_for_status _ = _ |- _ => rewrite H
         | H : BeautifulSoup _ = _ |- _ => rewrite H
         | H : hidden_fields _ = _ |- _ => rewrite H
         end.

(** The navigation on a session, whatever the session answers: its calls
    follow the protocol, and it constructs no session. *)
Lemma exec_navigate h s cedula :
  ∃ tr s' r,
    exec h s (try_except (navigate BeautifulSoup h cedula) reraise) = (tr, s', r)
    ∧ follows_protocol BeautifulSoup h cedula (network_calls tr) r
    ∧ sessions_made tr = []
    ∧ adapters s' = adapters s.
Proof.
  unfold navigate.
  repeat nav_step; cbn; (eexists _, _, _; split; [reflexivity|]); cbn;
    (split; [|by split]).
  all: econstructor; unfold step_fails, last_step_fails, response_tokens;
    try (by left); try (right; eexists; split; [done|]); by rew_hyps.
Qed.

(** A lookup of the navigator from any store: a new session at the end of
    the store, the two mounts, then the navigation on that session. *)
Lemma run_get_tse_details_html w cedula :
  ∃ tr s' r,
    run (get_tse_details_html BeautifulSoup cedula) w =
      Some (EvSession (length w) :: EvMount (length w) "http://" adapter
              :: EvMount (length w) "https://" adapter :: tr,
            w ++ [s'], r)
    ∧ follows_protocol BeautifulSoup (length w) cedula (network_calls tr) r
    ∧ sessions_made tr = []
    ∧ adapters s' =
        <["https://" := adapter]> (<["http://" := adapter]>
          (adapters (fresh_session connect (length w)))).
Proof.
  rewrite get_tse_details_html_unfold, run_new by apply owns_with_session.
  set (h := length w).
  change (exec h (fresh_session connect h) (with_session cedula h))
    with (let '(tr, s', r) :=
            let '(tr, s', r) :=
              exec h (mkSession (<["https://" := adapter]> (<["http://" := adapter]>
                        (adapters (fresh_session connect h))))
                        (conn (fresh_session connect h)))
                   (try_except (navigate BeautifulSoup h cedula) reraise) in
            (EvMount h "https://" adapter :: tr, s', r) in
          (EvMount h "http://" adapter :: tr, s', r)).
  destruct (exec_navigate h
              (mkSession (<["https://" := adapter]> (<["http://" := adapter]>
                 (adapters (fresh_session connect h))))
                 (conn (fresh_session connect h))) cedula)
    as (tr & s' & r & -> & Hp & Hs & Ha).
  by exists tr, s', r.
Qed.

(** The facade: the trace and the store are the navigator's; the result is
    always a dictionary. *)
Lemma run_check_fallecido w cedula :
  ∃ tr w' r,
    run (get_tse_details_html BeautifulSoup cedula) w = Some (tr, w', r)
    ∧ run (check_fallecido BeautifulSoup cedula) w =
        Some (tr, w',
              inr match r with
                  | inl e => {[ "error" := VStr (str e) ]}
                  | inr html_content =>
                      match BeautifulSoup html_content with
                      | inl e => {[ "error" := VStr (str e) ]}
                      | inr soup => read_fallecido cedula soup
                      end
                  end).
Proof.
  destruct (run_get_tse_details_html w cedula) as (tr & s' & r & Hrun & _).
  eexists _, _, r. split; [exact Hrun|].
  unfold check_fallecido. rewrite run_try_except.
  change (html_content ← get_tse_details_html BeautifulSoup cedula;
          soup ← lift (BeautifulSoup html_content);
          mret (read_fallecido cedula soup))
    with (bind (get_tse_details_html BeautifulSoup cedula)
               (λ html_content, bind (lift (BeautifulSoup html_content))
                  (λ soup, Ret (read_fallecido cedula soup)))).
  rewrite run_bind, Hrun. destruct r as [e|html]; cbn.
  - by rewrite app_nil_r.
  - destruct (BeautifulSoup html) as [e|soup]; cbn; by rewrite !app_nil_r.
Qed.

End Navigation.

(** ** The claims on the navigation *)

(** When the three hidden fields are read, they are the StateTokenSet of
    the page, and every input that was found had its value. *)
Lemma hidden_fields_state_tokens (soup : Soup.Document) (hidden : list (string * string)) :
  hidden_fields soup = inr hidden →
  hidden = state_tokens soup
  ∧ ∀ name t,
      name ∈ ["__VIEWSTATE"; "__VIEWSTATEGENERATOR"; "__EVENTVALIDATION"] →
      Soup.find "input" "name" name soup = Some t →
      is_Some (Soup.attr_get "value" (Soup.el_attrs t)).
Proof.
  unfold hidden_fields, value_or_empty, state_tokens, token_value. intros Hh.
  destruct (Soup.find "input" "name" "__VIEWSTATE" soup) as [t1|] eqn:H1;
    [destruct (Soup.attr_get "value" (Soup.el_attrs t1)) as [v1|] eqn:A1; [|done]|];
    (destruct (Soup.find "input" "name" "__VIEWSTATEGENERATOR" soup) as [t2|] eqn:H2;
      [destruct (Soup.attr_get "value" (Soup.el_attrs t2)) as [v2|] eqn:A2; [|done]|]);
    (destruct (Soup.find "input" "name" "__EVENTVALIDATION" soup) as [t3|] eqn:H3;
      [destruct (Soup.attr_get "value" (Soup.el_attrs t3)) as [v3|] eqn:A3; [|done]|]);
    simplify_eq; (split; [done|]); intros name t Hin Hfind;
    repeat (apply elem_of_cons in Hin as [->|Hin]; [simplify_eq; by eexists|]);
    by apply elem_of_nil in Hin.
Qed.

(** The tokens the navigator takes from a response are the StateTokenSet
    of its page, and the response is then an accepted one. *)
Lemma response_tokens_accepted (BeautifulSoup : string → Exception + Soup.Document)
    (r : Response) (t : list (string * string)) :
  response_tokens BeautifulSoup r = inr t →
  ∃ soup, accepted BeautifulSoup r soup ∧ t = state_tokens soup.
Proof.
  unfold response_tokens. intros Ht.
  destruct (raise_for_status r) as [?|[]] eqn:Hst; [done|].
  destruct (BeautifulSoup (content r)) as [?|soup] eqn:Hbs; [done|].
  destruct (hidden_fields_state_tokens soup t Ht) as [-> Hval].
  by exists soup.
Qed.

Section NavigatorClaims.

Variable BeautifulSoup : string → Exception + Soup.Document.
Context {T : Type}.
Variable send : gmap string HTTPAdapter → T → Request → T * Outcome.
Variable connect : nat → T.

Local Abbreviation run := (run send connect).
Local Abbreviation get_tse_details_html := (get_tse_details_html BeautifulSoup).
Local Abbreviation response_tokens := (response_tokens BeautifulSoup).
Local Abbreviation follows_protocol := (follows_protocol BeautifulSoup).

(** C2, as the code has it.  For every identifier and every store, a
    lookup of the navigator makes at most three exchanges, all on the
    session it has just constructed, in this order and without skipping
    any: the GET of the search page without a body; the POST of the search
    page with the identifier, the submit token and the StateTokenSet of the
    first page; the POST of the result page with the event target, the
    empty event argument and the StateTokenSet of the second page.  A step
    that fails ends the sequence with its exception; a lookup that returns
    a document has made exactly the three exchanges and returns the text of
    the third response. *)
Theorem navigator_three_exchanges (w : World T) (cedula : string) :
  ∃ tr w' r,
    run (get_tse_details_html cedula) w = Some (tr, w', r)
    ∧ exchanges BeautifulSoup (length w) cedula (network_calls tr) r
    ∧ match r with
      | inr details_html =>
          ∃ r1 soup1 r2 soup2 r3,
            network_calls tr =
              [(length w, step1_request, inr r1);
               (length w, step2_request cedula (state_tokens soup1), inr r2);
               (length w, step3_request (state_tokens soup2), inr r3)]
            ∧ accepted BeautifulSoup r1 soup1
            ∧ accepted BeautifulSoup r2 soup2
            ∧ raise_for_status r3 = inr ()
            ∧ details_html = text r3
      | inl _ => (1 ≤ length (network_calls tr) ≤ 3)%nat
      end.
Proof.
  destruct (run_get_tse_details_html BeautifulSoup send connect w cedula)
    as (tr & s' & r & Hrun & Hp & _).
  eexists _, _, r. split; [exact Hrun|].
  change (network_calls (_ :: _ :: _ :: tr)) with (network_calls tr).
  inversion Hp as [o1 e Hf|r1 t0 o2 e Ht0 Hf|r1 t0 r2 t1 o3 e Ht0 Ht1 Hf
                  |r1 t0 r2 t1 r3 Ht0 Ht1 Hst3]; subst.
  - split; [by constructor|cbn; lia].
  - destruct (response_tokens_accepted BeautifulSoup r1 t0 Ht0) as (soup1 & Ha1 & ->).
    split; [by econstructor|cbn; lia].
  - destruct (response_tokens_accepted BeautifulSoup r1 t0 Ht0) as (soup1 & Ha1 & ->).
    destruct (response_tokens_accepted BeautifulSoup r2 t1 Ht1) as (soup2 & Ha2 & ->).
    split; [by econstructor|cbn; lia].
  - destruct (response_tokens_accepted BeautifulSoup r1 t0 Ht0) as (soup1 & Ha1 & ->).
    destruct (response_tokens_accepted BeautifulSoup r2 t1 Ht1) as (soup2 & Ha2 & ->).
    split; [by econstructor|]. by exists r1, soup1, r2, soup2, r3.
Qed.

(** C1, as the code has it.  When the tokens taken from the response of
    step 1 or step 2 are all empty, the navigator does not stop: the next
    request is sent on the same session and carries these empty tokens.
    After step 2 this next request is the POST of the result page, and the
    lookup ends as that call ends: with its exception, with the error of
    its status, or with the text of its response. *)
Theorem empty_tokens_are_sent_on (w : World T) (cedula : string)
    tr w' r (i : nat) h req resp tokens :
  run (get_tse_details_html cedula) w = Some (tr, w', r) →
  (i < 2)%nat →
  network_calls tr !! i = Some (h, req, inr resp) →
  response_tokens resp = inr tokens →
  all_empty tokens = true →
  ∃ out,
    network_calls tr !! S i = Some (h, next_request cedula i tokens, out)
    ∧ (i = 1%nat →
       req_url (next_request cedula i tokens) = result_url
       ∧ ((∃ e, last_step_fails out e ∧ r = inl e)
          ∨ (∃ r3, out = inr r3 ∧ r = inr (text r3)))).
Proof.
  intros Hrun Hi Hcall Htok _.
  destruct (run_get_tse_details_html BeautifulSoup send connect w cedula)
    as (tr0 & s' & r0 & Hrun0 & Hp & _).
  rewrite Hrun in Hrun0. injection Hrun0 as -> -> ->. clear Hrun.
  change (network_calls (_ :: _ :: _ :: tr0)) with (network_calls tr0) in *.
  inversion Hp as [o1 e Hf|r1 t0 o2 e Ht0 Hf|r1 t0 r2 t1 o3 e Ht0 Ht1 Hf
                  |r1 t0 r2 t1 r3 Ht0 Ht1 Hst];
    subst; match goal with H : _ = network_calls tr0 |- _ => rewrite <- H in * end;
    destruct i as [|[|]]; try lia; cbn in Hcall; simplify_eq;
    try (destruct Hf as [?|(? & ? & ?)]; simplify_eq; congruence).
  all: repeat match goal with
              | H1 : ?x = inr _, H2 : ?x = inr _ |- _ =>
                  rewrite H1 in H2; injection H2 as <-
              end.
  all: eexists; (split; [reflexivity|]); intros ?; simplify_eq; (split; [done|]).
  - left. by exists e.
  - right. by exists r3.
Qed.

End NavigatorClaims.

(** C2, as the specification states it, fails on a site that answers the
    search with 404: for this identifier the lookup makes two exchanges,
    not three, and ends with the error of the status. *)
Lemma refused_lookup_makes_two_exchanges :
  Mock.refused_run =
    Some (Mock.trace_of Mock.refused_run, Mock.store_of Mock.refused_run,
          inl (HTTPError ("404 Client Error: Not Found for url: " +:+ search_url)))
  ∧ requests_of (Mock.trace_of Mock.refused_run) =
      [step1_request;
       step2_request "102920417"
         [("__VIEWSTATE", "dDwtMTA4"); ("__VIEWSTATEGENERATOR", "CA0B0334");
          ("__EVENTVALIDATION", "/wEWBAK")]]
  ∧ length (network_calls (Mock.trace_of Mock.refused_run)) ≠ 3%nat.
Proof.
  split; [vm_compute; reflexivity|]. split; [vm_compute; reflexivity|].
  vm_compute. lia.
Qed.

(** C1, as the specification states it, fails on the scripted site: the
    second response yields an all-empty token set, and yet the result page
    is requested and a document is returned. *)
Lemma empty_tokens_do_not_abort :
  Mock.lookup_run = Some (Mock.trace, Mock.final_store, inr "<details>")
  ∧ network_calls Mock.trace !! 1%nat =
      Some (0%nat,
            step2_request "102920417"
              [("__VIEWSTATE", "dDwtMTA4"); ("__VIEWSTATEGENERATOR", "CA0B0334");
               ("__EVENTVALIDATION", "/wEWBAK")],
            Mock.ok search_url "<result>")
  ∧ response_tokens Mock.BeautifulSoup
      (mkResponse 200 "OK" search_url "<result>" "<result>") = inr Mock.no_tokens
  ∧ all_empty Mock.no_tokens = true
  ∧ result_url ∈ req_url <$> requests_of Mock.trace
  ∧ ¬ aborts_on_empty_tokens Mock.BeautifulSoup (network_calls Mock.trace)
        (inr "<details>").
Proof.
  split; [vm_compute; reflexivity|].
  split; [vm_compute; reflexivity|].
  split; [vm_compute; reflexivity|].
  split; [reflexivity|].
  split.
  - replace (requests_of Mock.trace)
      with [step1_request;
            step2_request "102920417"
              [("__VIEWSTATE", "dDwtMTA4"); ("__VIEWSTATEGENERATOR", "CA0B0334");
               ("__EVENTVALIDATION", "/wEWBAK")];
            step3_request Mock.no_tokens] by (vm_compute; reflexivity).
    cbn. set_solver.
  - intros Habort.
    destruct (Habort 1%nat 0%nat
                (step2_request "102920417"
                   [("__VIEWSTATE", "dDwtMTA4"); ("__VIEWSTATEGENERATOR", "CA0B0334");
                    ("__EVENTVALIDATION", "/wEWBAK")])
                (mkResponse 200 "OK" search_url "<result>" "<result>")
                Mock.no_tokens)
      as [Hlen _]; [lia|vm_compute; reflexivity|vm_compute; reflexivity|reflexivity|].
    vm_compute in Hlen. lia.
Qed.

Lemma empty_tokens_are_sent_on_witness :
  ∃ out,
    network_calls Mock.trace !! 2%nat
      = Some (0%nat, next_request "102920417" 1 Mock.no_tokens, out)
    ∧ (1%nat = 1%nat →
       req_url (next_request "102920417" 1 Mock.no_tokens) = result_url
       ∧ ((∃ e, last_step_fails out e ∧ @inr Exception string "<details>" = inl e)
          ∨ (∃ r3, out = inr r3 ∧ @inr Exception string "<details>" = inr (text r3)))).
Proof.
  refine (empty_tokens_are_sent_on Mock.BeautifulSoup Mock.send Mock.connect
            [] "102920417" Mock.trace Mock.final_store (inr "<details>")
            1%nat 0%nat
            (step2_request "102920417"
               [("__VIEWSTATE", "dDwtMTA4"); ("__VIEWSTATEGENERATOR", "CA0B0334");
                ("__EVENTVALIDATION", "/wEWBAK")])
            (mkResponse 200 "OK" search_url "<result>" "<result>")
            Mock.no_tokens _ _ _ _ _).
  - vm_compute. reflexivity.
  - lia.
  - vm_compute. reflexivity.
  - vm_compute. reflexivity.
  - reflexivity.
Defined.

(** ** The claims on the facade *)

Lemma as_lookup_result_deceased b cedula :
  as_lookup_result {[ "fallecido" := VBool b; "cedula" := VStr cedula ]}
  = Some (Deceased b cedula).
Proof. reflexivity. Qed.

Lemma as_lookup_result_failure m :
  as_lookup_result {[ "error" := VStr m ]} = Some (Failure m).
Proof. reflexivity. Qed.

(** The reading of the status element gives one of the two dictionaries. *)
Lemma read_fallecido_cases cedula soup :
  (∃ b, read_fallecido cedula soup = {[ "fallecido" := VBool b; "cedula" := VStr cedula ]})
  ∨ (∃ m, read_fallecido cedula soup = {[ "error" := VStr m ]}).
Proof.
  unfold read_fallecido. repeat case_match; eauto.
Qed.

Lemma deceased_shape b cedula :
  success_shape cedula {[ "fallecido" := VBool b; "cedula" := VStr cedula ]}
  ∧ ¬ failure_shape {[ "fallecido" := VBool b; "cedula" := VStr cedula ]}.
Proof.
  split.
  - split; [by exists b|]. by split.
  - intros [[v Hv] _]. by simplify_map_eq.
Qed.

Lemma error_shape m cedula :
  failure_shape {[ "error" := VStr m ]}
  ∧ ¬ success_shape cedula {[ "error" := VStr m ]}.
Proof.
  split.
  - split; [by exists (VStr m)|done].
  - intros (_ & _ & He). by simplify_map_eq.
Qed.

Section FacadeClaims.

Variable BeautifulSoup : string → Exception + Soup.Document.
Context {T : Type}.
Variable send : gmap string HTTPAdapter → T → Request → T * Outcome.
Variable connect : nat → T.

Local Abbreviation run := (run send connect).
Local Abbreviation get_tse_details_html := (get_tse_details_html BeautifulSoup).
Local Abbreviation check_fallecido := (check_fallecido BeautifulSoup).

(** The dictionary the facade builds from the navigator's result. *)
Lemma facade_result_cases cedula (r : Exception + string) :
  let d := match r with
           | inl e => {[ "error" := VStr (str e) ]}
           | inr html_content =>
               match BeautifulSoup html_content with
               | inl e => {[ "error" := VStr (str e) ]}
               | inr soup => read_fallecido cedula soup
               end
           end in
  (∃ b, d = {[ "fallecido" := VBool b; "cedula" := VStr cedula ]})
  ∨ (∃ m, d = {[ "error" := VStr m ]}).
Proof.
  destruct r as [e|html]; cbn; [eauto|].
  destruct (BeautifulSoup html) as [e|soup]; [eauto|].
  apply read_fallecido_cases.
Qed.

(** C5. For every identifier, every store, every behaviour of the
    transport and of the parser, the lookup of the facade ends with a
    dictionary and never with an exception; the dictionary stands for
    [Deceased b] paired with the identifier or for a [Failure]; and an
    exception raised by the navigator or by the parser becomes the failure
    that carries its message. *)
Theorem lookup_never_raises (w : World T) (cedula : string) :
  ∃ tr w' r d,
    run (get_tse_details_html cedula) w = Some (tr, w', r)
    ∧ run (check_fallecido cedula) w = Some (tr, w', inr d)
    ∧ ((∃ b, as_lookup_result d = Some (Deceased b cedula))
       ∨ (∃ m, as_lookup_result d = Some (Failure m)))
    ∧ match r with
      | inl e => as_lookup_result d = Some (Failure (str e))
      | inr html_content =>
          match BeautifulSoup html_content with
          | inl e => as_lookup_result d = Some (Failure (str e))
          | inr soup => d = read_fallecido cedula soup
          end
      end.
Proof.
  destruct (run_check_fallecido BeautifulSoup send connect w cedula)
    as (tr & w' & r & Hnav & Hrun).
  eexists tr, w', r, _. split; [exact Hnav|]. split; [exact Hrun|]. split.
  - destruct (facade_result_cases cedula r) as [[b ->]|[m ->]]; [left|right]; eauto.
  - destruct r as [e|html]; [done|]. by destruct (BeautifulSoup html).
Qed.

(** C10. Every dictionary the facade returns has one of two shapes that
    exclude each other: ["fallecido"] with a boolean, ["cedula"] with the
    identifier given and no ["error"]; or ["error"] and no ["fallecido"].
    The route answers 400 without calling the facade, or hands the
    facade's dictionary on with 200 when it has the first shape and with
    500 when it has the second. *)
Theorem result_shapes (w : World T) (cedula : string) (args : list (string * string)) :
  (∃ tr w' d,
     run (check_fallecido cedula) w = Some (tr, w', inr d)
     ∧ (success_shape cedula d ∧ ¬ failure_shape d
        ∨ failure_shape d ∧ ¬ success_shape cedula d))
  ∧ (∃ tr w' body status,
       run (check_cedula BeautifulSoup args) w = Some (tr, w', inr (body, status))
       ∧ (status = 400 ∧ tr = []
          ∨ status = 200 ∧ (∃ c, args_get "cedula" args = Some c ∧ success_shape c body)
          ∨ status = 500 ∧ failure_shape body)).
Proof.
  split.
  - destruct (run_check_fallecido BeautifulSoup send connect w cedula)
      as (tr & w' & r & _ & Hrun).
    eexists tr, w', _. split; [exact Hrun|].
    destruct (facade_result_cases cedula r) as [[b ->]|[m ->]].
    + left. apply deceased_shape.
    + right. apply error_shape.
  - unfold check_cedula.
    destruct (args_get "cedula" args) as [[|a s]|] eqn:Hget.
    + eexists [], w, _, 400. split; [reflexivity|]. by left.
    + destruct (run_check_fallecido BeautifulSoup send connect w (String a s))
        as (tr & w' & r & _ & Hrun).
      change (result ← check_fallecido (String a s);
              if decide (is_Some (result !! "error")) then mret (result, 500)
              else mret (result, 200))
        with (bind (check_fallecido (String a s))
                (λ result, if decide (is_Some (result !! "error"))
                           then Ret (result, 500) else Ret (result, 200))).
      rewrite run_bind, Hrun.
      destruct (facade_result_cases (String a s) r) as [[b ->]|[m ->]].
      * rewrite decide_False by (intros [v Hv]; by simplify_map_eq).
        cbn. eexists _, _, _, 200. split; [by rewrite app_nil_r|].
        right; left. split; [done|]. eexists. split; [done|]. apply deceased_shape.
      * rewrite decide_True by (by exists (VStr m)).
        cbn. eexists _, _, _, 500. split; [by rewrite app_nil_r|].
        right; right. split; [done|]. apply (error_shape m EmptyString).
    + eexists [], w, _, 400. split; [reflexivity|]. by left.
Qed.

(** C4, as the code has it.  When the query has no [cedula] or an empty
    one, the route answers 400 with the error "Missing 'cedula' parameter"
    and nothing happens: no session is constructed, no request is sent, the
    facade is not called. *)
Theorem missing_identifier_rejected_by_route (w : World T)
    (args : list (string * string)) :
  args_get "cedula" args = None ∨ args_get "cedula" args = Some EmptyString →
  run (check_cedula BeautifulSoup args) w =
    Some ([], w, inr ({[ "error" := VStr "Missing 'cedula' parameter" ]}, 400)).
Proof.
  unfold check_cedula. by intros [-> | ->].
Qed.

End FacadeClaims.

Lemma missing_identifier_rejected_by_route_witness :
  run Mock.send Mock.connect (check_cedula Mock.BeautifulSoup [("nombre", "x")]) [] =
    Some ([], [], inr ({[ "error" := VStr "Missing 'cedula' parameter" ]}, 400)).
Proof.
  apply (missing_identifier_rejected_by_route Mock.BeautifulSoup Mock.send
           Mock.connect [] [("nombre", "x")]).
  left. reflexivity.
Defined.

(** C4, as the specification states it, fails twice.  The facade does not
    look at its argument: with the empty identifier it drives the whole
    navigation, three network calls on the scripted site, and answers
    [Deceased].  The route does reject a missing identifier without any
    network call, with another message than "missing identifier". *)
Lemma facade_does_not_validate :
  (∃ tr w',
     run Mock.send Mock.connect (check_fallecido Mock.BeautifulSoup EmptyString) []
       = Some (tr, w', inr {[ "fallecido" := VBool true; "cedula" := VStr EmptyString ]})
     ∧ length (network_calls tr) = 3%nat)
  ∧ (∃ body,
       run Mock.send Mock.connect (check_cedula Mock.BeautifulSoup []) []
         = Some ([], [], inr (body, 400))
       ∧ as_lookup_result body = Some (Failure "Missing 'cedula' parameter")
       ∧ as_lookup_result body ≠ Some (Failure "missing identifier")).
Proof.
  split.
  - eexists _, _. split; vm_compute; reflexivity.
  - eexists. split; [reflexivity|]. split; [reflexivity|]. discriminate.
Qed.

(** ** Timeouts *)

Section TimeoutClaims.

Variable BeautifulSoup : string → Exception + Soup.Document.
Context {T : Type}.
Variable send : gmap string HTTPAdapter → T → Request → T * Outcome.
Variable connect : nat → T.

Local Abbreviation run := (run send connect).
Local Abbreviation check_fallecido := (check_fallecido BeautifulSoup).

(** C9, as the code has it.  No request of a lookup carries a timeout:
    each is sent with [timeout=None].  What the program does set is the
    retry policy of its session, three retries of a failed connection with
    backoff factor 1/2, mounted for both schemes.  An exception that a call
    raises, a timeout of the library among them, ends the lookup as the
    failure that carries its message. *)
Theorem requests_carry_no_timeout (w : World T) (cedula : string) :
  ∃ tr w' d,
    run (check_fallecido cedula) w = Some (tr, w', inr d)
    ∧ Forall (λ req, req_timeout req = None) (requests_of tr)
    ∧ (∃ tr', tr = EvSession (length w) :: EvMount (length w) "http://" adapter
                     :: EvMount (length w) "https://" adapter :: tr')
    ∧ max_retries adapter = mkRetry (Some 10%nat) (Some 3%nat) (1 # 2)%Q
    ∧ (∀ h req e, (h, req, inl e) ∈ network_calls tr →
                  d = {[ "error" := VStr (str e) ]}).
Proof.
  destruct (run_check_fallecido BeautifulSoup send connect w cedula)
    as (tr & w' & r & Hnav & Hrun).
  destruct (run_get_tse_details_html BeautifulSoup send connect w cedula)
    as (tr0 & s' & r0 & Hnav0 & Hp & _).
  rewrite Hnav in Hnav0. injection Hnav0 as -> -> ->.
  eexists _, _, _. split; [exact Hrun|].
  unfold requests_of.
  change (network_calls (_ :: _ :: _ :: tr0)) with (network_calls tr0).
  split; [|split; [by eexists|split; [reflexivity|]]].
  - inversion Hp; subst; cbn; repeat constructor.
  - intros h req e Hin.
    inversion Hp as [o1 e' Hf|r1 t0 o2 e' Ht0 Hf|r1 t0 r2 t1 o3 e' Ht0 Ht1 Hf
                    |r1 t0 r2 t1 r3 Ht0 Ht1 Hst]; subst;
      match goal with H : _ = network_calls tr0 |- _ => rewrite <- H in Hin end;
      repeat (apply elem_of_cons in Hin as [Hin|Hin]; simplify_eq);
      try (by apply elem_of_nil in Hin);
      destruct Hf as [?|(? & ? & ?)]; by simplify_eq.
Qed.

End TimeoutClaims.

(** C9, as the specification states it, fails on the first request of the
    scripted lookup: it carries no timeout. *)
Lemma first_request_has_no_timeout :
  requests_of Mock.trace !! 0%nat = Some step1_request
  ∧ req_timeout step1_request = None
  ∧ ¬ Forall carries_timeout (requests_of Mock.trace).
Proof.
  split; [vm_compute; reflexivity|]. split; [reflexivity|].
  intros HF.
  apply (Forall_lookup_1 _ _ 0%nat step1_request) in HF; [|vm_compute; reflexivity].
  destruct HF as [x Hx]. discriminate Hx.
Qed.

(** ** The reading of the status element *)

Example read_si :
  read_fallecido "102920417" (Mock.status_page [Soup.Text "si"])
  = {[ "fallecido" := VBool true; "cedula" := VStr "102920417" ]}.
Proof. reflexivity. Qed.

Example read_SI_spaces :
  read_fallecido "102920417" (Mock.status_page [Soup.Text "  SI
 "])
  = {[ "fallecido" := VBool true; "cedula" := VStr "102920417" ]}.
Proof. reflexivity. Qed.

Example read_no :
  read_fallecido "102920417" (Mock.status_page [Soup.Text " no "])
  = {[ "fallecido" := VBool false; "cedula" := VStr "102920417" ]}.
Proof. reflexivity. Qed.

Lemma get_text_single name attrs s :
  Soup.get_text (Soup.mkElement name attrs [Soup.Text s]) = s.
Proof. unfold Soup.get_text, Soup.all_strings. cbn. apply append_empty. Qed.

(** C6, as the code has it.  When the document has the status element,
    its text is read fragment by fragment: every text string inside the
    element is stripped, the empty ones are dropped, the rest are joined
    and the whole is uppercased.  The result is [Deceased true] exactly
    when this reading is "SI" and [Deceased false] exactly when it is
    "NO".  When the element holds one text string and nothing else, the
    reading is that string trimmed and uppercased. *)
Theorem status_read_by_fragments (cedula : string) (soup : Soup.Document)
    (e : Soup.Element) :
  Soup.find "span" "id" "lblfallecido" soup = Some e →
  let v := PyStr.upper (Soup.get_text_strip e) in
  (as_lookup_result (read_fallecido cedula soup) = Some (Deceased true cedula)
     ↔ v = "SI")
  ∧ (as_lookup_result (read_fallecido cedula soup) = Some (Deceased false cedula)
     ↔ v = "NO")
  ∧ (∀ s, Soup.el_children e = [Soup.Text s] →
          v = normalized_text e ∧ v = PyStr.upper (PyStr.strip s)).
Proof.
  intros Hfind v. unfold read_fallecido. rewrite Hfind. fold v.
  split; [|split].
  - destruct (String.eqb_spec v "SI") as [->|Hsi]; [done|].
    destruct (String.eqb_spec v "NO") as [->|Hno]; by split.
  - destruct (String.eqb_spec v "SI") as [Hsi|Hsi]; [rewrite Hsi; by split|].
    destruct (String.eqb_spec v "NO") as [->|Hno]; by split.
  - intros s Hs. destruct e as [name attrs children]. cbn in Hs. subst children.
    unfold v, normalized_text.
    by rewrite get_text_strip_single, get_text_single.
Qed.

Lemma status_read_by_fragments_witness :
  let v := PyStr.upper (Soup.get_text_strip
             (Soup.mkElement "span" [("id", "lblfallecido")] [Soup.Text " SI "])) in
  (as_lookup_result
     (read_fallecido "102920417" (Mock.status_page [Soup.Text " SI "]))
     = Some (Deceased true "102920417") ↔ v = "SI")
  ∧ (as_lookup_result
       (read_fallecido "102920417" (Mock.status_page [Soup.Text " SI "]))
       = Some (Deceased false "102920417") ↔ v = "NO")
  ∧ (∀ s, [Soup.Text " SI "] = [Soup.Text s] →
          v = normalized_text
                (Soup.mkElement "span" [("id", "lblfallecido")] [Soup.Text " SI "])
          ∧ v = PyStr.upper (PyStr.strip s)).
Proof.
  apply (status_read_by_fragments "102920417" (Mock.status_page [Soup.Text " SI "])
           (Soup.mkElement "span" [("id", "lblfallecido")] [Soup.Text " SI "])).
  reflexivity.
Defined.

(** C6, as the specification states it, fails on a status element whose
    text is split by nested markup: trimmed and uppercased, the text of the
    element is "S I", neither "SI" nor "NO", and the result is
    [Deceased true]. *)
Lemma nested_status_reads_SI :
  ∃ e,
    Soup.find "span" "id" "lblfallecido" Mock.nested_status = Some e
    ∧ Soup.get_text e = "S I"
    ∧ normalized_text e = "S I"
    ∧ normalized_text e ≠ "SI"
    ∧ as_lookup_result (read_fallecido "102920417" Mock.nested_status)
      = Some (Deceased true "102920417").
Proof.
  eexists. split; [reflexivity|]. split; [reflexivity|]. split; [reflexivity|].
  split; [discriminate|reflexivity].
Qed.




(** C8, as the code has it.  When the document has no status element,
    the result is the failure whose message is
    "Could not find 'lblfallecido' element in HTML". *)
Theorem missing_status_element (cedula : string) (soup : Soup.Document) :
  Soup.find "span" "id" "lblfallecido" soup = None →
  read_fallecido cedula soup
    = {[ "error" := VStr "Could not find 'lblfallecido' element in HTML" ]}
  ∧ as_lookup_result (read_fallecido cedula soup)
    = Some (Failure "Could not find 'lblfallecido' element in HTML").
Proof. intros Hfind. unfold read_fallecido. rewrite Hfind. by split. Qed.

Lemma missing_status_element_witness :
  read_fallecido "102920417" [Soup.Tag "p" [] [Soup.Text "Sin resultados"]]
    = {[ "error" := VStr "Could not find 'lblfallecido' element in HTML" ]}
  ∧ as_lookup_result
      (read_fallecido "102920417" [Soup.Tag "p" [] [Soup.Text "Sin resultados"]])
    = Some (Failure "Could not find 'lblfallecido' element in HTML").
Proof.
  apply (missing_status_element "102920417"
           [Soup.Tag "p" [] [Soup.Text "Sin resultados"]]).
  reflexivity.
Defined.

(** C8, as the specification states it, fails on a document without the
    status element: the message is not "status element not found". *)
Lemma missing_status_message :
  Soup.find "span" "id" "lblfallecido" [Soup.Tag "p" [] [Soup.Text "Sin resultados"]]
    = None
  ∧ as_lookup_result
      (read_fallecido "102920417" [Soup.Tag "p" [] [Soup.Text "Sin resultados"]])
    = Some (Failure "Could not find 'lblfallecido' element in HTML")
  ∧ as_lookup_result
      (read_fallecido "102920417" [Soup.Tag "p" [] [Soup.Text "Sin resultados"]])
    ≠ Some (Failure "status element not found").
Proof. split; [reflexivity|]. split; [reflexivity|discriminate]. Qed.

(** ** Two lookups in one process *)

Section Isolation.

Context {T : Type}.
Variable send : gmap string HTTPAdapter → T → Request → T * Outcome.
Variable connect : nat → T.

Local Abbreviation run := (run send connect).
Local Abbreviation step := (step send connect).
Local Abbreviation exec := (exec send).
Local Abbreviation result_of := (result_of send connect).
Local Abbreviation interleave := (interleave send connect).
Local Abbreviation concurrently := (concurrently send connect).
Local Abbreviation alone := (alone send connect).

Lemma result_of_step {A} (p : Prog A) w ev w1 p1 :
  step p w = Some (ev, w1, p1) → result_of p w = result_of p1 w1.
Proof.
  intros Hs. unfold result_of. rewrite (run_step _ _ _ _ _ _ _ Hs).
  by destruct (run p1 w1) as [[[??]?]|].
Qed.

(** The result of a program that owns [h] depends on the store through
    the state of [h] alone. *)
Lemma result_of_owned {A} (p : Prog A) h w s :
  owns (Some h) p → w !! h = Some s →
  result_of p w = Some (exec h s p).2.
Proof.
  intros Ho Hs. unfold result_of. rewrite (run_owned _ _ _ _ Ho _ _ Hs).
  by destruct (exec h s p) as [[??]?].
Qed.

Lemma result_of_frame {A} (p : Prog A) h w1 w2 :
  owns (Some h) p → is_Some (w1 !! h) → w1 !! h = w2 !! h →
  result_of p w1 = result_of p w2.
Proof.
  intros Ho [s Hs] Heq.
  rewrite (result_of_owned _ _ _ _ Ho Hs).
  rewrite Heq in Hs. by rewrite (result_of_owned _ _ _ _ Ho Hs).
Qed.

(** The result of a program that has no session yet depends on the store
    through its length alone: the handle its session will get. *)
Lemma result_of_fresh {A} (p : Prog A) w1 w2 :
  owns None p → length w1 = length w2 →
  result_of p w1 = result_of p w2 ∧ is_Some (result_of p w1).
Proof.
  intros Ho. remember None as o eqn:Eo. revert w1 w2.
  induction Ho as [| |o line k Hk IH|k Hk| |]; intros w1 w2 Hlen; try done.
  - destruct (IH Eo w1 w2 Hlen) as [Heq Hsome].
    rewrite (result_of_step (Print line k) w1 (EvPrint line) w1 k eq_refl).
    rewrite (result_of_step (Print line k) w2 (EvPrint line) w2 k eq_refl).
    done.
  - unfold result_of. rewrite !run_new by done. rewrite Hlen.
    destruct (exec _ _ _) as [[??]?]. cbn. split; [done|by eexists].
Qed.

(** A step of a thread keeps it a thread, leaves alone every session
    that is not its own, and does not change what the thread does alone. *)
Lemma step_thread {A} (p : Prog A) o w ev w1 p1 :
  thread_ok w o p → step p w = Some (ev, w1, p1) →
  ∃ o1, thread_ok w1 o1 p1
        ∧ (length w ≤ length w1)%nat
        ∧ (∀ h', is_Some (w !! h') → o ≠ Some h' → w1 !! h' = w !! h' ∧ o1 ≠ Some h')
        ∧ (∀ h r, alone w1 o1 p1 h r → alone w o p h r).
Proof.
  intros [Ho Hw] Hs.
  destruct Ho as [h a|h e|o line k Hk|k Hk|h prefix a k Hk|h req k Hk].
  - done.
  - done.
  - cbn in Hs. simplify_eq. exists o. split; [done|]. split; [done|]. split; [done|].
    intros h r Hal. destruct o as [h0|].
    + destruct Hal as [-> Hr]. split; [done|].
      by rewrite (result_of_step (Print line p1) w1 (EvPrint line) w1 p1 eq_refl).
    + destruct Hal as [Hlen Hr]. split; [done|]. intros wa Hwa.
      rewrite (result_of_step (Print line p1) wa (EvPrint line) wa p1 eq_refl).
      by apply Hr.
  - cbn in Hs. simplify_eq. exists (Some (length w)).
    split; [split; [apply Hk|rewrite lookup_snoc; by eexists]|].
    split; [rewrite length_app; cbn; lia|]. split.
    + intros h' [s Hs] _. apply lookup_lt_Some in Hs as Hlt.
      split; [by rewrite lookup_app_l|]. intros ?; simplify_eq. lia.
    + intros h r [-> Hr]. split; [done|]. intros wa Hwa.
      rewrite (result_of_step (NewSession k) wa (EvSession (length wa))
                 (wa ++ [fresh_session connect (length wa)]) (k (length wa)) eq_refl).
      rewrite Hwa, <- Hr.
      apply (result_of_frame _ (length w)); [apply Hk| |].
      * rewrite <- Hwa, lookup_snoc. by eexists.
      * rewrite lookup_snoc. by rewrite <- Hwa, lookup_snoc.
  - cbn in Hs. destruct Hw as [s Hs']. rewrite Hs' in Hs. cbn in Hs. simplify_eq.
    exists (Some h). split.
    { split; [done|]. rewrite list_lookup_insert_eq; [by eexists|].
      by eapply lookup_lt_Some. }
    split; [by rewrite length_insert|]. split.
    + intros h' _ Hne. split; [|done]. apply list_lookup_insert_ne. congruence.
    + intros h0 r [-> Hr]. split; [done|]. rewrite <- Hr.
      apply result_of_step with (ev := EvMount h prefix a). cbn. by rewrite Hs'.
  - cbn in Hs. destruct Hw as [s Hs']. rewrite Hs' in Hs. cbn in Hs.
    destruct (send _ _ _) as [c out] eqn:Hsend. simplify_eq.
    exists (Some h). split.
    { split; [apply Hk|]. rewrite list_lookup_insert_eq; [by eexists|].
      by eapply lookup_lt_Some. }
    split; [by rewrite length_insert|]. split.
    + intros h' _ Hne. split; [|done]. apply list_lookup_insert_ne. congruence.
    + intros h0 r [-> Hr]. split; [done|]. rewrite <- Hr.
      apply result_of_step with (ev := EvSend h req out). cbn. rewrite Hs'. cbn.
      by rewrite Hsend.
Qed.

(** What the other thread does alone is not changed by the step either. *)
Lemma alone_other {A} (p : Prog A) o (w w1 : World T) h r :
  thread_ok w o p →
  (length w ≤ length w1)%nat →
  (∀ h', o = Some h' → w1 !! h' = w !! h') →
  alone w1 o p h r → alone w o p h r.
Proof.
  intros [Ho Hw] Hlen Hsame Hal. destruct o as [h0|].
  - destruct Hal as [-> Hr]. split; [done|]. rewrite <- Hr.
    apply (result_of_frame _ h0); [done|done|]. symmetry. by apply Hsame.
  - destruct Hal as [Hle Hr]. split; [lia|done].
Qed.

(** A thread run to its end: it ends, its own session is the only entry
    of the store that changes, and a thread without a session adds one. *)
Lemma run_thread {A} (p : Prog A) o w :
  thread_ok w o p →
  ∃ tr w2 r,
    run p w = Some (tr, w2, r)
    ∧ match o with
      | Some h => ∃ s', w2 = <[h := s']> w
      | None => ∃ s', w2 = w ++ [s']
      end.
Proof.
  intros [Ho Hw]. destruct o as [h|].
  - destruct Hw as [s Hs]. rewrite (run_owned _ _ _ _ Ho _ _ Hs).
    destruct (exec h s p) as [[tr s'] r]. by eexists _, _, _; eauto.
  - clear Hw. remember None as o eqn:Eo.
    induction Ho as [| |o line k Hk IH|k Hk| |]; try done.
    + destruct (IH Eo) as (tr & w2 & r & Hrun & Hw2). cbn. rewrite Hrun. cbn.
      by eexists _, _, _.
    + rewrite run_new by done. destruct (exec _ _ _) as [[tr s'] r].
      by eexists _, _, _; eauto.
Qed.

Lemma concurrently_nil {A B} w (p1 : Prog A) (p2 : Prog B) :
  concurrently [] w p1 p2 =
    '(_, w2, r1) ← run p1 w; '(_, _, r2) ← run p2 w2; Some (r1, r2).
Proof. reflexivity. Qed.

Lemma concurrently_cons {A B} b sched w (p1 : Prog A) (p2 : Prog B) :
  concurrently (b :: sched) w p1 p2 =
    if b then
      match step p1 w with
      | Some (_, w', p1') => concurrently sched w' p1' p2
      | None => concurrently sched w p1 p2
      end
    else
      match step p2 w with
      | Some (_, w', p2') => concurrently sched w' p1 p2'
      | None => concurrently sched w p1 p2
      end.
Proof.
  unfold concurrently. cbn. destruct b.
  - by destruct (step p1 w) as [[[??]?]|].
  - by destruct (step p2 w) as [[[??]?]|].
Qed.

(** Two threads with different sessions, under any schedule: both end,
    on two different sessions, each with the result it has alone. *)
Lemma interleaved_alone {A B} sched :
  ∀ w (p1 : Prog A) (p2 : Prog B) o1 o2,
    thread_ok w o1 p1 → thread_ok w o2 p2 →
    (∀ h, o1 = Some h → o2 ≠ Some h) →
    ∃ h1 h2 r1 r2,
      h1 ≠ h2
      ∧ concurrently sched w p1 p2 = Some (r1, r2)
      ∧ alone w o1 p1 h1 r1
      ∧ alone w o2 p2 h2 r2.
Proof.
  induction sched as [|b sched IH]; intros w p1 p2 o1 o2 H1 H2 Hne.
  - rewrite concurrently_nil.
    destruct (run_thread p1 o1 w H1) as (tr1 & w2 & r1 & Hrun1 & Hw2).
    assert (thread_ok w2 o2 p2 ∧ (length w ≤ length w2)%nat
            ∧ (∀ h', o2 = Some h' → w2 !! h' = w !! h')) as (H2' & Hlen & Hsame).
    { destruct H2 as [Ho2 Hs2]. destruct o1 as [h1|], Hw2 as [s' ->].
      - split; [split; [done|]|split; [by rewrite length_insert|]].
        + destruct o2 as [h2|]; [|done].
          rewrite list_lookup_insert_ne; [done|]. intros ->. by eapply Hne.
        + intros h' ->. apply list_lookup_insert_ne. intros ->. by eapply Hne.
      - split; [split; [done|]|split; [rewrite length_app; lia|]].
        + destruct o2 as [h2|]; [|done]. destruct Hs2 as [s Hs].
          rewrite lookup_app_l; [by eexists|]. by eapply lookup_lt_Some.
        + intros h' ->. destruct Hs2 as [s Hs].
          apply lookup_app_l. by eapply lookup_lt_Some. }
    destruct (run_thread p2 o2 w2 H2') as (tr2 & w3 & r2 & Hrun2 & Hw3).
    rewrite Hrun1. cbn. rewrite Hrun2. cbn.
    assert (result_of p1 w = Some r1) as Hr1 by (unfold result_of; by rewrite Hrun1).
    assert (result_of p2 w2 = Some r2) as Hr2 by (unfold result_of; by rewrite Hrun2).
    destruct o1 as [h1|], o2 as [h2|].
    + exists h1, h2, r1, r2. split; [intros ->; by eapply Hne|].
      split; [done|]. split; [done|].
      apply (alone_other p2 (Some h2) w w2); [done|done|done|done].
    + exists h1, (length w2), r1, r2.
      destruct H1 as [_ [s Hs]]. apply lookup_lt_Some in Hs.
      split; [lia|]. split; [done|]. split; [done|].
      split; [done|]. intros wa Hwa. rewrite <- Hr2.
      apply result_of_fresh; [apply H2|done].
    + exists (length w), h2, r1, r2.
      destruct H2 as [Ho2 [s Hs]]. apply lookup_lt_Some in Hs as Hlt.
      split; [lia|]. split; [done|]. split.
      * split; [done|]. intros wa Hwa. rewrite <- Hr1.
        apply result_of_fresh; [apply H1|done].
      * apply (alone_other p2 (Some h2) w w2); [by split; [|eexists]|done|done|done].
    + destruct Hw2 as [s' ->].
      exists (length w), (length (w ++ [s'])), r1, r2.
      split; [rewrite length_app; cbn; lia|]. split; [done|]. split.
      * split; [done|]. intros wa Hwa. rewrite <- Hr1.
        apply result_of_fresh; [apply H1|done].
      * split; [done|]. intros wa Hwa. rewrite <- Hr2.
        apply result_of_fresh; [apply H2|done].
  - rewrite concurrently_cons. destruct b.
    + destruct (step p1 w) as [[[ev w1] p1']|] eqn:Hs; [|by apply IH].
      destruct (step_thread p1 o1 w ev w1 p1' H1 Hs) as (o1' & H1' & Hlen & Hoth & Hal).
      assert (thread_ok w1 o2 p2 ∧ (∀ h', o2 = Some h' → w1 !! h' = w !! h')
              ∧ (∀ h, o1' = Some h → o2 ≠ Some h)) as (H2' & Hsame & Hne').
      { destruct H2 as [Ho2 Hs2]. destruct o2 as [h2|].
        - destruct (Hoth h2 Hs2) as [Heq Hn]; [intros ?; by eapply Hne|].
          split; [split; [done|by rewrite Heq]|].
          split; [by intros ? [= <-]|]. intros h -> [= ->]. done.
        - split; [done|]. split; done. }
      destruct (IH w1 p1' p2 o1' o2 H1' H2' Hne') as (h1 & h2 & r1 & r2 & Hd & Hc & Ha1 & Ha2).
      exists h1, h2, r1, r2. split; [done|]. split; [done|].
      split; [by apply Hal|]. by apply (alone_other p2 o2 w w1).
    + destruct (step p2 w) as [[[ev w1] p2']|] eqn:Hs; [|by apply IH].
      destruct (step_thread p2 o2 w ev w1 p2' H2 Hs) as (o2' & H2' & Hlen & Hoth & Hal).
      assert (thread_ok w1 o1 p1 ∧ (∀ h', o1 = Some h' → w1 !! h' = w !! h')
              ∧ (∀ h, o1 = Some h → o2' ≠ Some h)) as (H1' & Hsame & Hne').
      { destruct H1 as [Ho1 Hs1]. destruct o1 as [h1|].
        - destruct (Hoth h1 Hs1) as [Heq Hn]; [intros ->; by eapply Hne|].
          split; [split; [done|by rewrite Heq]|].
          split; [by intros ? [= <-]|]. by intros h [= <-].
        - split; [done|]. split; done. }
      destruct (IH w1 p1 p2' o1 o2' H1' H2' Hne') as (h1 & h2 & r1 & r2 & Hd & Hc & Ha1 & Ha2).
      exists h1, h2, r1, r2. split; [done|]. split; [done|].
      split; [by apply (alone_other p1 o1 w w1)|by apply Hal].
Qed.

End Isolation.

Section IsolationClaim.

Variable BeautifulSoup : string → Exception + Soup.Document.
Context {T : Type}.
Variable send : gmap string HTTPAdapter → T → Request → T * Outcome.
Variable connect : nat → T.

Local Abbreviation get_tse_details_html := (get_tse_details_html BeautifulSoup).
Local Abbreviation check_fallecido := (check_fallecido BeautifulSoup).

(** C3. A lookup constructs its session first and sends every request on
    that session.  Two lookups of one process, their effects interleaved in
    any order, end on two different sessions, and each returns what it
    returns when it runs alone on its session: the document its own
    transport leads to, whatever the other lookup asks and is answered. *)
Theorem lookups_are_isolated (sched : list bool) (w : World T)
    (cedula1 cedula2 : string) :
  owns None (get_tse_details_html cedula1)
  ∧ ∃ h1 h2 r1 r2,
      h1 ≠ h2
      ∧ concurrently send connect sched w
          (get_tse_details_html cedula1) (get_tse_details_html cedula2)
        = Some (r1, r2)
      ∧ (∀ wa : World T, length wa = h1 →
           result_of send connect (get_tse_details_html cedula1) wa = Some r1)
      ∧ (∀ wb : World T, length wb = h2 →
           result_of send connect (get_tse_details_html cedula2) wb = Some r2).
Proof.
  split; [apply owns_get_tse_details_html|].
  destruct (interleaved_alone send connect sched w
              (get_tse_details_html cedula1) (get_tse_details_html cedula2)
              None None)
    as (h1 & h2 & r1 & r2 & Hne & Hc & [_ H1] & [_ H2]).
  - split; [apply owns_get_tse_details_html|done].
  - split; [apply owns_get_tse_details_html|done].
  - done.
  - by exists h1, h2, r1, r2.
Qed.

(** The same for two lookups through the facade: interleaved in any
    order, they end on two different sessions and each returns the
    dictionary it returns when it runs alone on its session. *)
Lemma facade_lookups_are_isolated (sched : list bool) (w : World T)
    (cedula1 cedula2 : string) :
  ∃ h1 h2 r1 r2,
    h1 ≠ h2
    ∧ concurrently send connect sched w
        (check_fallecido cedula1) (check_fallecido cedula2)
      = Some (r1, r2)
    ∧ (∀ wa : World T, length wa = h1 →
         result_of send connect (check_fallecido cedula1) wa = Some r1)
    ∧ (∀ wb : World T, length wb = h2 →
         result_of send connect (check_fallecido cedula2) wb = Some r2).
Proof.
  destruct (interleaved_alone send connect sched w
              (check_fallecido cedula1) (check_fallecido cedula2)
              None None)
    as (h1 & h2 & r1 & r2 & Hne & Hc & [_ H1] & [_ H2]).
  - split; [apply owns_check_fallecido|done].
  - split; [apply owns_check_fallecido|done].
  - done.
  - by exists h1, h2, r1, r2.
Qed.

End IsolationClaim.

(** Two scripted lookups whose sessions answer differently, the second
    lookup scheduled first: each gets the details page of its own
    session. *)
Example interleaved_mock :
  concurrently Mock.send
    (λ n, [Mock.ok search_url "<form>"; Mock.ok search_url "<result>";
           Mock.ok result_url (if decide (n = 0%nat) then "<first>" else "<second>")])
    [false; true; true; false; false; true; false; true; true; false]
    []
    (get_tse_details_html Mock.BeautifulSoup "102920417")
    (get_tse_details_html Mock.BeautifulSoup "205550111")
  = Some (inr "<second>", inr "<first>").
Proof. vm_compute. reflexivity. Qed.

(** * More of the program *)

(** ** The hidden fields *)

(** [hidden_fields] fails in one way only, with [KeyError('value')], and
    exactly when one of the three inputs is there without a [value]
    attribute; otherwise it gives the three fields in their fixed order,
    each with the value of the first input of its name, or empty when the
    document has no such input. *)
Theorem hidden_fields_three_or_KeyError (soup : Soup.Document) :
  match hidden_fields soup with
  | inr hidden =>
      hidden.*1 = ["__VIEWSTATE"; "__VIEWSTATEGENERATOR"; "__EVENTVALIDATION"]
      ∧ ∀ name v, (name, v) ∈ hidden →
          match Soup.find "input" "name" name soup with
          | Some t => Soup.attr_get "value" (Soup.el_attrs t) = Some v
          | None => v = EmptyString
          end
  | inl e =>
      e = KeyError "value"
      ∧ ∃ name t,
          name ∈ ["__VIEWSTATE"; "__VIEWSTATEGENERATOR"; "__EVENTVALIDATION"]
          ∧ Soup.find "input" "name" name soup = Some t
          ∧ Soup.attr_get "value" (Soup.el_attrs t) = None
  end.
Proof.
  unfold hidden_fields, value_or_empty.
  destruct (Soup.find "input" "name" "__VIEWSTATE" soup) as [t1|] eqn:H1;
    [destruct (Soup.attr_get "value" (Soup.el_attrs t1)) as [v1|] eqn:A1|];
    try (split; [done|]; exists "__VIEWSTATE", t1; split; [set_solver|done]).
  all: destruct (Soup.find "input" "name" "__VIEWSTATEGENERATOR" soup) as [t2|] eqn:H2;
    [destruct (Soup.attr_get "value" (Soup.el_attrs t2)) as [v2|] eqn:A2|];
    try (split; [done|]; exists "__VIEWSTATEGENERATOR", t2; split; [set_solver|done]).
  all: destruct (Soup.find "input" "name" "__EVENTVALIDATION" soup) as [t3|] eqn:H3;
    [destruct (Soup.attr_get "value" (Soup.el_attrs t3)) as [v3|] eqn:A3|];
    try (split; [done|]; exists "__EVENTVALIDATION", t3; split; [set_solver|done]).
  all: split; [done|]; intros name v Hin;
    repeat (apply elem_of_cons in Hin as [Hin|Hin]; [simplify_eq; by rewrite ?H1, ?H2, ?H3|]);
    by apply elem_of_nil in Hin.
Qed.

Lemma hidden_fields_keys (soup : Soup.Document) (hidden : list (string * string)) :
  hidden_fields soup = inr hidden →
  hidden.*1 = ["__VIEWSTATE"; "__VIEWSTATEGENERATOR"; "__EVENTVALIDATION"].
Proof.
  unfold hidden_fields. intros Hh.
  repeat match type of Hh with
         | context [value_or_empty ?x] => destruct (value_or_empty x)
         end; by simplify_eq.
Qed.

Lemma hidden_fields_missing_value (soup : Soup.Document) name t :
  name ∈ ["__VIEWSTATE"; "__VIEWSTATEGENERATOR"; "__EVENTVALIDATION"] →
  Soup.find "input" "name" name soup = Some t →
  Soup.attr_get "value" (Soup.el_attrs t) = None →
  hidden_fields soup = inl (KeyError "value").
Proof.
  intros Hin Hfind Hattr. unfold hidden_fields, value_or_empty.
  repeat (apply elem_of_cons in Hin as [->|Hin]; [rewrite ?Hfind, ?Hattr|]);
    [..|by apply elem_of_nil in Hin];
    repeat case_match; by simplify_eq.
Qed.

(** The names of the posted fields are pairwise distinct: unpacking the
    hidden fields into the form never replaces the identifier, the submit
    token, the event target or the event argument.  The search form has
    five fields, the identifier first and as given; the details form has
    five. *)
Theorem form_fields_distinct (cedula : string) (soup : Soup.Document)
    (hidden : list (string * string)) :
  hidden_fields soup = inr hidden →
  NoDup (search_data cedula hidden).*1
  ∧ NoDup (details_data hidden).*1
  ∧ args_get "txtcedula" (search_data cedula hidden) = Some cedula
  ∧ args_get "btnConsultaCedula" (search_data cedula hidden) = Some "Consultar"
  ∧ args_get "__EVENTTARGET" (details_data hidden) = Some "LinkButton11"
  ∧ length (search_data cedula hidden) = 5%nat
  ∧ length (details_data hidden) = 5%nat.
Proof.
  intros Hh. pose proof (hidden_fields_keys soup hidden Hh) as Hkeys.
  unfold search_data, details_data. rewrite !fmap_app, Hkeys.
  split; [by apply (bool_decide_unpack _)|].
  split; [by apply (bool_decide_unpack _)|].
  split; [done|]. split; [done|]. split; [done|].
  rewrite !length_app. apply (f_equal length) in Hkeys.
  rewrite length_fmap in Hkeys. cbn in *. lia.
Qed.

Lemma form_fields_distinct_witness :
  NoDup (search_data "102920417" [("__VIEWSTATE", "dDwtMTA4");
           ("__VIEWSTATEGENERATOR", "CA0B0334"); ("__EVENTVALIDATION", "/wEWBAK")]).*1
  ∧ NoDup (details_data [("__VIEWSTATE", "dDwtMTA4");
           ("__VIEWSTATEGENERATOR", "CA0B0334"); ("__EVENTVALIDATION", "/wEWBAK")]).*1
  ∧ args_get "txtcedula" (search_data "102920417" [("__VIEWSTATE", "dDwtMTA4");
           ("__VIEWSTATEGENERATOR", "CA0B0334"); ("__EVENTVALIDATION", "/wEWBAK")])
    = Some "102920417"
  ∧ args_get "btnConsultaCedula" (search_data "102920417" [("__VIEWSTATE", "dDwtMTA4");
           ("__VIEWSTATEGENERATOR", "CA0B0334"); ("__EVENTVALIDATION", "/wEWBAK")])
    = Some "Consultar"
  ∧ args_get "__EVENTTARGET" (details_data [("__VIEWSTATE", "dDwtMTA4");
           ("__VIEWSTATEGENERATOR", "CA0B0334"); ("__EVENTVALIDATION", "/wEWBAK")])
    = Some "LinkButton11"
  ∧ length (search_data "102920417" [("__VIEWSTATE", "dDwtMTA4");
           ("__VIEWSTATEGENERATOR", "CA0B0334"); ("__EVENTVALIDATION", "/wEWBAK")]) = 5%nat
  ∧ length (details_data [("__VIEWSTATE", "dDwtMTA4");
           ("__VIEWSTATEGENERATOR", "CA0B0334"); ("__EVENTVALIDATION", "/wEWBAK")]) = 5%nat.
Proof.
  apply (form_fields_distinct "102920417" (Mock.form_page "dDwtMTA4" "CA0B0334" "/wEWBAK")).
  reflexivity.
Defined.

(** ** Failures on the way *)

Section NavigatorFacts.

Variable BeautifulSoup : string → Exception + Soup.Document.
Context {T : Type}.
Variable send : gmap string HTTPAdapter → T → Request → T * Outcome.
Variable connect : nat → T.

Local Abbreviation run := (run send connect).
Local Abbreviation exec := (exec send).
Local Abbreviation get_tse_details_html := (get_tse_details_html BeautifulSoup).
Local Abbreviation check_fallecido := (check_fallecido BeautifulSoup).

Lemma raise_for_status_error (r : Response) :
  400 ≤ status_code r < 600 → ∃ msg, raise_for_status r = inl (HTTPError msg).
Proof.
  intros [Hlo Hhi]. unfold raise_for_status.
  destruct (400 <=? status_code r) eqn:E1; [|lia].
  destruct (status_code r <? 500) eqn:E2; cbn; [by eexists|].
  destruct (500 <=? status_code r) eqn:E3; [|lia].
  destruct (status_code r <? 600) eqn:E4; [|lia]. cbn. by eexists.
Qed.

(** A response with an HTTP error status, at any of the three steps, ends
    the navigation there: no further request is sent, and the lookup
    raises the [HTTPError] of [raise_for_status]. *)
Theorem http_error_status_aborts (w : World T) (cedula : string)
    tr w' r (i : nat) h req resp :
  run (get_tse_details_html cedula) w = Some (tr, w', r) →
  network_calls tr !! i = Some (h, req, inr resp) →
  400 ≤ status_code resp < 600 →
  length (network_calls tr) = S i
  ∧ ∃ msg, raise_for_status resp = inl (HTTPError msg) ∧ r = inl (HTTPError msg).
Proof.
  intros Hrun Hcall Hst.
  destruct (raise_for_status_error resp Hst) as [msg Hmsg].
  destruct (run_get_tse_details_html BeautifulSoup send connect w cedula)
    as (tr0 & s' & r0 & Hrun0 & Hp & _).
  rewrite Hrun in Hrun0. injection Hrun0 as -> -> ->. clear Hrun.
  change (network_calls (_ :: _ :: _ :: tr0)) with (network_calls tr0) in *.
  assert (∀ t, response_tokens BeautifulSoup resp ≠ inr t) as Hno.
  { intros t. unfold response_tokens. by rewrite Hmsg. }
  assert (∀ o e, o = inr resp → step_fails BeautifulSoup o e → e = HTTPError msg) as Hsf.
  { intros o e -> [?|(r' & ? & Hr')]; simplify_eq.
    unfold response_tokens in Hr'. rewrite Hmsg in Hr'. by simplify_eq. }
  assert (∀ o e, o = inr resp → last_step_fails o e → e = HTTPError msg) as Hlf.
  { intros o e -> [?|(r' & ? & Hr')]; simplify_eq. rewrite Hmsg in Hr'. by simplify_eq. }
  inversion Hp as [o1 e Hf|r1 t0 o2 e Ht0 Hf|r1 t0 r2 t1 o3 e Ht0 Ht1 Hf
                  |r1 t0 r2 t1 r3 Ht0 Ht1 Hst3];
    subst; match goal with H : _ = network_calls tr0 |- _ => rewrite <- H in * end;
    destruct i as [|[|[|]]]; cbn in Hcall; simplify_eq;
    try (exfalso; eapply Hno; eassumption);
    try (split; [done|]; exists msg; split; [done|]; f_equal; eauto; fail).
  congruence.
Qed.

(** An input that is found without a [value] attribute, in the page of
    step 1 or of step 2, ends the lookup there, and the facade answers
    with the bare message of the [KeyError]: [{"error": "'value'"}]. *)
Theorem missing_value_attribute_reported (w : World T) (cedula : string)
    tr w' d (i : nat) h req resp soup name t :
  run (check_fallecido cedula) w = Some (tr, w', inr d) →
  (i < 2)%nat →
  network_calls tr !! i = Some (h, req, inr resp) →
  raise_for_status resp = inr () →
  BeautifulSoup (content resp) = inr soup →
  name ∈ ["__VIEWSTATE"; "__VIEWSTATEGENERATOR"; "__EVENTVALIDATION"] →
  Soup.find "input" "name" name soup = Some t →
  Soup.attr_get "value" (Soup.el_attrs t) = None →
  d = {[ "error" := VStr "'value'" ]}
  ∧ length (network_calls tr) = S i.
Proof.
  intros Hrun Hi Hcall Hst Hbs Hname Hfind Hattr.
  assert (response_tokens BeautifulSoup resp = inl (KeyError "value")) as Htok.
  { unfold response_tokens. rewrite Hst, Hbs.
    by apply (hidden_fields_missing_value soup name t). }
  destruct (run_check_fallecido BeautifulSoup send connect w cedula)
    as (tr1 & w1 & r & Hnav & Hrun1).
  rewrite Hrun in Hrun1. injection Hrun1 as <- <- Hd.
  destruct (run_get_tse_details_html BeautifulSoup send connect w cedula)
    as (tr0 & s' & r0 & Hrun0 & Hp & _).
  rewrite Hnav in Hrun0. injection Hrun0 as -> -> ->. clear Hnav Hrun.
  change (network_calls (_ :: _ :: _ :: tr0)) with (network_calls tr0) in *.
  assert (∀ o e, o = inr resp → step_fails BeautifulSoup o e → e = KeyError "value") as Hsf.
  { intros o e -> [?|(r' & ? & Hr')]; simplify_eq. congruence. }
  inversion Hp as [o1 e Hf|r1 t0 o2 e Ht0 Hf|r1 t0 r2 t1 o3 e Ht0 Ht1 Hf
                  |r1 t0 r2 t1 r3 Ht0 Ht1 Hst3];
    subst; match goal with H : _ = network_calls tr0 |- _ => rewrite <- H in * end;
    destruct i as [|[|]]; try lia; cbn in Hcall; simplify_eq; try congruence.
  all: split; [|done].
  all: by rewrite (Hsf _ _ eq_refl Hf).
Qed.

Ltac nav_case :=
  cbn;
  match goal with
  | |- context [send ?a ?b ?c] =>
      let H := fresh "Hsend" in destruct (send a b c) as [? [?|?]] eqn:H
  | |- context [raise_for_status ?r] =>
      let H := fresh "Hst" in destruct (raise_for_status r) as [?|[]] eqn:H
  | |- context [BeautifulSoup ?m] =>
      let H := fresh "Hbs" in destruct (BeautifulSoup m) as [?|?] eqn:H
  | |- context [hidden_fields ?d] =>
      let H := fresh "Hhf" in destruct (hidden_fields d) as [?|?] eqn:H
  | |- context [@reraise ?A ?e] => rewrite (@reraise_eq A e)
  end.

(** The lines and the requests of a navigation, in the order of the
    trace: the script up to the point where a step fails, then the one
    line of the [except] clause. *)
Lemma exec_navigate_script h s cedula :
  ∃ tr s' r m,
    exec h s (try_except (navigate BeautifulSoup h cedula) reraise) = (tr, s', r)
    ∧ omap event_kind tr =
        take m (navigation_script cedula)
        ++ match r with inl e => [inl (reraise_line e)] | inr _ => [] end
    ∧ match r with
      | inr _ => m = 8%nat
      | inl _ => m = 2%nat ∨ m = 4%nat ∨ m = 5%nat ∨ m = 7%nat
      end.
Proof.
  unfold navigate.
  repeat nav_case; cbn; eexists _, _, _;
    first [ exists 2%nat; split; [reflexivity|]; split; [reflexivity|tauto]
          | exists 4%nat; split; [reflexivity|]; split; [reflexivity|tauto]
          | exists 5%nat; split; [reflexivity|]; split; [reflexivity|tauto]
          | exists 7%nat; split; [reflexivity|]; split; [reflexivity|tauto]
          | exists 8%nat; split; [reflexivity|]; split; reflexivity ].
Qed.

(** The run of a lookup, written with [exec] on its new session. *)
Lemma run_get_tse_details_html_exec w cedula :
  run (get_tse_details_html cedula) w =
    Some (let '(tr, s', r) :=
            exec (length w)
              (mkSession (<["https://" := adapter]> (<["http://" := adapter]>
                            (adapters (fresh_session connect (length w)))))
                         (conn (fresh_session connect (length w))))
              (try_except (navigate BeautifulSoup (length w) cedula) reraise) in
          (EvSession (length w) :: EvMount (length w) "http://" adapter
             :: EvMount (length w) "https://" adapter :: tr,
           w ++ [s'], r)).
Proof.
  rewrite get_tse_details_html_unfold, run_new by apply owns_with_session.
  set (h := length w).
  change (exec h (fresh_session connect h) (with_session BeautifulSoup cedula h))
    with (let '(tr, s', r) :=
            let '(tr, s', r) :=
              exec h (mkSession (<["https://" := adapter]> (<["http://" := adapter]>
                        (adapters (fresh_session connect h))))
                        (conn (fresh_session connect h)))
                   (try_except (navigate BeautifulSoup h cedula) reraise) in
            (EvMount h "https://" adapter :: tr, s', r) in
          (EvMount h "http://" adapter :: tr, s', r)).
  by destruct (exec h _ _) as [[??]?].
Qed.

(** What a lookup writes on the console, and when.  Lines and requests
    come in one order: the line of step 1, the GET of the search page, the
    line of step 2 with the identifier, the POST of the search page, the
    lines of steps 3 and 4, the POST of the result page, the line of
    step 5.  A lookup that returns its document has gone through all
    eight.  A lookup that fails stops right after one of the three
    requests or after the line of step 3, and then writes one more line,
    the error line of its exception, and nothing else. *)
Theorem console_output (w : World T) (cedula : string) :
  ∃ tr w' r m,
    run (get_tse_details_html cedula) w = Some (tr, w', r)
    ∧ omap event_kind tr =
        take m (navigation_script cedula)
        ++ match r with inl e => [inl (reraise_line e)] | inr _ => [] end
    ∧ match r with
      | inr _ => m = 8%nat
      | inl _ => m = 2%nat ∨ m = 4%nat ∨ m = 5%nat ∨ m = 7%nat
      end.
Proof.
  rewrite run_get_tse_details_html_exec.
  destruct (exec_navigate_script (length w)
              (mkSession (<["https://" := adapter]> (<["http://" := adapter]>
                            (adapters (fresh_session connect (length w)))))
                         (conn (fresh_session connect (length w)))) cedula)
    as (tr & s' & r & m & -> & Hk & Hr).
  by exists (EvSession (length w) :: EvMount (length w) "http://" adapter
               :: EvMount (length w) "https://" adapter :: tr), (w ++ [s']), r, m.
Qed.

(** What a lookup does to the store of sessions: it adds one session at
    the end, the only one it constructs, with both schemes mounted on the
    retrying adapter; the sessions that were there are left as they were.
    A second lookup never reuses the session of the first. *)
Theorem lookup_adds_one_session (w : World T) (cedula : string) :
  ∃ tr s' d,
    run (check_fallecido cedula) w = Some (tr, w ++ [s'], inr d)
    ∧ sessions_made tr = [length w]
    ∧ adapters s' = {[ "https://" := adapter; "http://" := adapter ]}.
Proof.
  destruct (run_check_fallecido BeautifulSoup send connect w cedula)
    as (tr & w' & r & Hnav & Hrun).
  destruct (run_get_tse_details_html BeautifulSoup send connect w cedula)
    as (tr0 & s' & r0 & Hrun0 & _ & Hmade & Had).
  rewrite Hnav in Hrun0. injection Hrun0 as -> -> ->.
  eexists _, s', _. split; [exact Hrun|]. split.
  - change (sessions_made (_ :: _ :: _ :: tr0)) with (length w :: sessions_made tr0).
    by rewrite Hmade.
  - rewrite Had. cbn. apply map_eq. intros k.
    destruct (decide (k = "https://")) as [->|?]; [by simplify_map_eq|].
    destruct (decide (k = "http://")) as [->|?]; by simplify_map_eq.
Qed.

End NavigatorFacts.

Lemma http_error_status_aborts_witness :
  length (network_calls (Mock.trace_of Mock.refused_run)) = 2%nat
  ∧ ∃ msg,
      raise_for_status (mkResponse 404 "Not Found" search_url "<error>" "<error>")
        = inl (HTTPError msg)
      ∧ @inl Exception string
          (HTTPError ("404 Client Error: Not Found for url: " +:+ search_url))
        = inl (HTTPError msg).
Proof.
  refine (http_error_status_aborts Mock.BeautifulSoup Mock.send
            (λ _, [Mock.ok search_url "<form>"; Mock.not_found search_url])
            [] "102920417" (Mock.trace_of Mock.refused_run)
            (Mock.store_of Mock.refused_run)
            (inl (HTTPError ("404 Client Error: Not Found for url: " +:+ search_url)))
            1%nat 0%nat
            (step2_request "102920417"
               [("__VIEWSTATE", "dDwtMTA4"); ("__VIEWSTATEGENERATOR", "CA0B0334");
                ("__EVENTVALIDATION", "/wEWBAK")])
            (mkResponse 404 "Not Found" search_url "<error>" "<error>") _ _ _).
  - vm_compute. reflexivity.
  - vm_compute. reflexivity.
  - cbn. lia.
Defined.

Lemma missing_value_attribute_reported_witness :
  {[ "error" := VStr "'value'" ]} = ({[ "error" := VStr "'value'" ]} : gmap string Value)
  ∧ length (network_calls (Mock.trace_of Mock.novalue_run)) = 1%nat.
Proof.
  refine (missing_value_attribute_reported
            (Mock.parser [("<form>", Mock.novalue_page)]) Mock.send
            (λ _, [Mock.ok search_url "<form>"])
            [] "102920417" (Mock.trace_of Mock.novalue_run)
            (Mock.store_of Mock.novalue_run)
            {[ "error" := VStr "'value'" ]}
            0%nat 0%nat step1_request
            (mkResponse 200 "OK" search_url "<form>" "<form>")
            Mock.novalue_page "__VIEWSTATE"
            (Soup.mkElement "input" [("type", "hidden"); ("name", "__VIEWSTATE")] [])
            _ _ _ _ _ _ _ _).
  - vm_compute. reflexivity.
  - lia.
  - vm_compute. reflexivity.
  - reflexivity.
  - reflexivity.
  - constructor.
  - reflexivity.
  - reflexivity.
Defined.

(** ** The table of details *)

Lemma elements_list_flat_map (l : list Soup.Node) :
  (fix elements_list (l : list Soup.Node) : list Soup.Element :=
     match l with
     | [] => []
     | c :: rest => Soup.elements_of c ++ elements_list rest
     end) l = flat_map Soup.elements_of l.
Proof. induction l as [|c rest IH]; [done|]. cbn. by rewrite IH. Qed.

Lemma filled_label_cons e els i k v :
  filled_label (e :: els) (S i) k v ↔ filled_label els i k v.
Proof. unfold filled_label. by cbn. Qed.

(** The loop of [parse_details_from_html], from any dictionary: an entry
    of the result is the one of the last filled label with that text, or,
    when there is none, the entry the dictionary had. *)
Lemma collect_details_lookup els :
  ∀ details k,
    collect_details els details !! k =
      match collect_details els ∅ !! k with
      | Some v => Some v
      | None => details !! k
      end.
Proof.
  induction els as [|e rest IH]; intros details k; cbn.
  - by rewrite lookup_empty.
  - destruct (is_label e); [|apply IH].
    destruct (List.find (Soup.is_tag "td") rest) as [td|]; [|apply IH].
    rewrite (IH (<[_ := _]> details)), (IH (<[_ := _]> ∅)).
    destruct (collect_details rest ∅ !! k) as [v|]; [done|].
    destruct (decide (Soup.get_text_strip e = k)) as [->|Hne].
    + by rewrite !lookup_insert_eq.
    + by rewrite !lookup_insert_ne, lookup_empty.
Qed.

Lemma collect_details_head e rest k :
  collect_details (e :: rest) ∅ !! k =
    match collect_details rest ∅ !! k with
    | Some v => Some v
    | None =>
        if is_label e then
          match List.find (Soup.is_tag "td") rest with
          | Some next_td =>
              if decide (Soup.get_text_strip e = k)
              then Some (Soup.get_text_strip next_td) else None
          | None => None
          end
        else None
    end.
Proof.
  cbn. destruct (is_label e); [|by destruct (collect_details rest ∅ !! k)].
  destruct (List.find (Soup.is_tag "td") rest) as [td|];
    [|by destruct (collect_details rest ∅ !! k)].
  rewrite collect_details_lookup.
  destruct (collect_details rest ∅ !! k); [done|].
  destruct (decide (Soup.get_text_strip e = k)) as [->|Hne].
  - by rewrite lookup_insert_eq.
  - by rewrite lookup_insert_ne, lookup_empty.
Qed.

Lemma collect_details_complete els :
  ∀ i k v, filled_label els i k v → is_Some (collect_details els ∅ !! k).
Proof.
  induction els as [|e rest IH]; intros i k v Hf.
  - destruct Hf as (label & td & Hl & _). by rewrite lookup_nil in Hl.
  - rewrite collect_details_head. destruct i as [|i].
    + destruct Hf as (label & td & Hl & Hlab & Hkey & Hfind & Hval).
      cbn in Hl. simplify_eq. rewrite skipn_cons, drop_0 in Hfind.
      destruct (collect_details rest ∅ !! _); [by eexists|].
      rewrite Hlab, Hfind, decide_True by done. by eexists.
    + apply filled_label_cons in Hf. destruct (IH i k v Hf) as [v0 ->]. by eexists.
Qed.

Lemma collect_details_sound els :
  ∀ k v,
    collect_details els ∅ !! k = Some v →
    ∃ i, filled_label els i k v
         ∧ ∀ j v', (i < j)%nat → ¬ filled_label els j k v'.
Proof.
  induction els as [|e rest IH]; intros k v Hk.
  - cbn in Hk. by rewrite lookup_empty in Hk.
  - rewrite collect_details_head in Hk.
    destruct (collect_details rest ∅ !! k) as [v0|] eqn:Hrest.
    + injection Hk as ->. destruct (IH k v Hrest) as (i & Hi & Hlast).
      exists (S i). split; [by apply filled_label_cons|].
      intros [|j] v' Hlt; [lia|]. rewrite filled_label_cons. apply Hlast. lia.
    + destruct (is_label e) eqn:Hlab; [|done].
      destruct (List.find (Soup.is_tag "td") rest) as [td|] eqn:Hfind; [|done].
      destruct (decide (Soup.get_text_strip e = k)) as [Hkey|]; [|done].
      injection Hk as <-. exists 0%nat. split.
      * by exists e, td.
      * intros [|j] v' Hlt; [lia|]. rewrite filled_label_cons. intros Hf.
        destruct (collect_details_complete rest j k v' Hf) as [? ?]. congruence.
Qed.

Lemma filled_label_functional els i k v k' v' :
  filled_label els i k v → filled_label els i k' v' → k = k' ∧ v = v'.
Proof.
  intros (l1 & t1 & H1 & _ & <- & F1 & <-) (l2 & t2 & H2 & _ & <- & F2 & <-).
  by simplify_eq.
Qed.

Section Details.

Variable BeautifulSoup : string → Exception + Soup.Document.

(** The dictionary of [parse_details_from_html] has an entry [k: v]
    exactly when [v] is the text of the first [td] after the last label
    cell with text [k] that has a [td] after it: a label cell without any
    [td] after it is skipped, and of two label cells with the same text
    the later one decides. *)
Theorem parse_details_last_label (html_content : string) (soup : Soup.Document) :
  BeautifulSoup html_content = inr soup →
  ∃ details,
    parse_details_from_html BeautifulSoup html_content = inr details
    ∧ ∀ k v,
        details !! k = Some v ↔
        ∃ i, filled_label (Soup.descendants soup) i k v
             ∧ ∀ j v', (i < j)%nat → ¬ filled_label (Soup.descendants soup) j k v'.
Proof.
  intros Hbs. unfold parse_details_from_html. rewrite Hbs.
  eexists. split; [done|]. intros k v. unfold parse_details. split.
  - apply collect_details_sound.
  - intros (i & Hi & Hlast).
    destruct (collect_details_complete _ i k v Hi) as [v0 Hv0].
    destruct (collect_details_sound _ k v0 Hv0) as (i0 & Hi0 & Hlast0).
    destruct (Nat.lt_trichotomy i i0) as [Hlt|[->|Hlt]].
    + by destruct (Hlast i0 v0 Hlt).
    + by destruct (filled_label_functional _ _ _ _ _ _ Hi Hi0) as [_ ->].
    + by destruct (Hlast0 i v Hlt).
Qed.

End Details.

(** The dictionary is empty exactly when no label cell of the document
    has a [td] after it; so it is for a document without label cells and
    for the empty document. *)
Theorem parse_details_empty_iff (soup : Soup.Document) :
  parse_details soup = ∅ ↔
  ∀ i k v, ¬ filled_label (Soup.descendants soup) i k v.
Proof.
  unfold parse_details. split.
  - intros Hempty i k v Hf.
    destruct (collect_details_complete _ i k v Hf) as [v0 Hv0].
    by rewrite Hempty, lookup_empty in Hv0.
  - intros Hnone. apply map_empty. intros k.
    destruct (collect_details _ ∅ !! k) as [v|] eqn:Hk; [|done].
    destruct (collect_details_sound _ k v Hk) as (i & Hi & _).
    by destruct (Hnone i k v).
Qed.

Lemma collect_details_rows rows :
  ∀ details,
    collect_details (flat_map Soup.elements_of (Mock.detail_row <$> rows)) details =
    foldl (λ m lv, <[PyStr.strip lv.1 := PyStr.strip lv.2]> m) details rows.
Proof.
  induction rows as [|[l v] rows IH]; intros details; [done|].
  cbn [fmap list_fmap flat_map foldl].
  change (Soup.elements_of (Mock.detail_row (l, v)))
    with [Soup.mkElement "tr" []
            [Soup.Tag "td" [("class", "label")] [Soup.Text l];
             Soup.Tag "td" [] [Soup.Text v]];
          Soup.mkElement "td" [("class", "label")] [Soup.Text l];
          Soup.mkElement "td" [] [Soup.Text v]].
  cbn [app collect_details].
  change (is_label (Soup.mkElement "tr" _ _)) with false.
  change (is_label (Soup.mkElement "td" [("class", "label")] [Soup.Text l])) with true.
  change (is_label (Soup.mkElement "td" [] [Soup.Text v])) with false.
  cbn [List.find]. change (Soup.is_tag "td" (Soup.mkElement "td" [] [Soup.Text v])) with true.
  cbn iota. rewrite !get_text_strip_single. apply IH.
Qed.

Lemma foldl_insert_rows (rows : list (string * string)) :
  ∀ m : gmap string string,
    foldl (λ m lv, <[PyStr.strip lv.1 := PyStr.strip lv.2]> m) m rows =
    list_to_map (reverse ((λ lv, (PyStr.strip lv.1, PyStr.strip lv.2)) <$> rows)) ∪ m.
Proof.
  induction rows as [|[l v] rows IH]; intros m.
  - cbn. by rewrite (left_id_L ∅ (∪)).
  - cbn [foldl fmap list_fmap]. rewrite IH, reverse_cons, list_to_map_app.
    cbn [list_to_map foldr fst snd].
    rewrite <- (assoc_L (∪)). f_equal.
    by rewrite insert_union_singleton_l, insert_empty.
Qed.

(** A details page that is one table, each row a label cell and a value
    cell, reads back as the dictionary from the trimmed labels to the
    trimmed values; when a label comes twice, its last row decides. *)
Theorem parse_details_table (rows : list (string * string)) :
  parse_details (Mock.details_table rows) =
  list_to_map (reverse ((λ lv, (PyStr.strip lv.1, PyStr.strip lv.2)) <$> rows)).
Proof.
  unfold parse_details, Mock.details_table, Soup.descendants.
  cbn [flat_map]. rewrite app_nil_r.
  cbn [Soup.elements_of]. rewrite elements_list_flat_map.
  cbn [collect_details].
  change (is_label (Soup.mkElement "table" _ _)) with false. cbn iota.
  rewrite collect_details_rows, foldl_insert_rows.
  by rewrite (right_id_L ∅ (∪)).
Qed.

Lemma parse_details_last_label_witness :
  ∃ details,
    parse_details_from_html (Mock.parser [("<details>", Mock.details_page)]) "<details>"
      = inr details
    ∧ ∀ k v,
        details !! k = Some v ↔
        ∃ i, filled_label (Soup.descendants Mock.details_page) i k v
             ∧ ∀ j v', (i < j)%nat →
                 ¬ filled_label (Soup.descendants Mock.details_page) j k v'.
Proof.
  apply (parse_details_last_label (Mock.parser [("<details>", Mock.details_page)])
           "<details>" Mock.details_page).
  reflexivity.
Defined.

Example parse_details_page :
  parse_details Mock.details_page
  = {[ "Nombre:" := "ANA MARIA"; "Fallecido/a:" := "NO" ]}.
Proof. vm_compute. reflexivity. Qed.

(** ** From the answer back to the site *)

Section FacadeFacts.

Variable BeautifulSoup : string → Exception + Soup.Document.
Context {T : Type}.
Variable send : gmap string HTTPAdapter → T → Request → T * Outcome.
Variable connect : nat → T.

Local Abbreviation run := (run send connect).
Local Abbreviation check_fallecido := (check_fallecido BeautifulSoup).

Lemma read_fallecido_grounded cedula soup b :
  read_fallecido cedula soup !! "fallecido" = Some (VBool b) →
  ∃ e, Soup.find "span" "id" "lblfallecido" soup = Some e
       ∧ PyStr.upper (Soup.get_text_strip e) = (if b then "SI" else "NO")
       ∧ read_fallecido cedula soup = {[ "fallecido" := VBool b; "cedula" := VStr cedula ]}.
Proof.
  unfold read_fallecido.
  destruct (Soup.find "span" "id" "lblfallecido" soup) as [e|]; [|done].
  destruct (String.eqb_spec (PyStr.upper (Soup.get_text_strip e)) "SI") as [Hsi|_].
  { intros Hb. simplify_map_eq. by exists e. }
  destruct (String.eqb_spec (PyStr.upper (Soup.get_text_strip e)) "NO") as [Hno|_].
  { intros Hb. simplify_map_eq. by exists e. }
  intros Hb. by simplify_map_eq.
Qed.

(** The facade never answers with a ["fallecido"] value that the site did
    not give: such an answer comes only after the three requests of a
    complete navigation, each accepted, from the status element of the
    third response, whose reading is "SI" for [True] and "NO" for
    [False]. *)
Theorem deceased_answer_is_grounded (w : World T) (cedula : string)
    tr w' d (b : bool) :
  run (check_fallecido cedula) w = Some (tr, w', inr d) →
  d !! "fallecido" = Some (VBool b) →
  ∃ r1 t0 r2 t1 r3 soup e,
    network_calls tr =
      [(length w, step1_request, inr r1);
       (length w, step2_request cedula t0, inr r2);
       (length w, step3_request t1, inr r3)]
    ∧ response_tokens BeautifulSoup r1 = inr t0
    ∧ response_tokens BeautifulSoup r2 = inr t1
    ∧ raise_for_status r3 = inr ()
    ∧ BeautifulSoup (text r3) = inr soup
    ∧ Soup.find "span" "id" "lblfallecido" soup = Some e
    ∧ PyStr.upper (Soup.get_text_strip e) = (if b then "SI" else "NO")
    ∧ d = {[ "fallecido" := VBool b; "cedula" := VStr cedula ]}.
Proof.
  intros Hrun Hd.
  destruct (run_check_fallecido BeautifulSoup send connect w cedula)
    as (tr1 & w1 & r & Hnav & Hrun1).
  rewrite Hrun in Hrun1. injection Hrun1 as <- <- ->.
  destruct (run_get_tse_details_html BeautifulSoup send connect w cedula)
    as (tr0 & s' & r0 & Hrun0 & Hp & _).
  rewrite Hnav in Hrun0. injection Hrun0 as -> -> ->. clear Hnav Hrun.
  change (network_calls (_ :: _ :: _ :: tr0)) with (network_calls tr0) in *.
  destruct r0 as [e|html]; [by simplify_map_eq|].
  destruct (BeautifulSoup html) as [e|soup] eqn:Hbs; [by simplify_map_eq|].
  destruct (read_fallecido_grounded cedula soup b Hd) as (e & Hfind & Hval & Heq).
  inversion Hp as [| | |r1 t0 r2 t1 r3 Ht0 Ht1 Hst3]; subst.
  by exists r1, t0, r2, t1, r3, soup, e.
Qed.

(** The route answers 400 exactly when the query has no [cedula] or an
    empty one, and these are the only requests it answers without any
    network call.  Every other identifier, whatever it is made of, is
    handed as it is to the facade: the trace, the store and the body are
    those of [check_fallecido] on that identifier, the lookup starts with
    the GET of the search page, and the status is 500 when the body has an
    ["error"] and 200 when not. *)
Theorem route_rejects_only_empty (w : World T) (args : list (string * string)) :
  ∃ tr w' body status,
    run (check_cedula BeautifulSoup args) w = Some (tr, w', inr (body, status))
    ∧ (status = 400 ∨ status = 200 ∨ status = 500)
    ∧ (status = 400 ↔
       args_get "cedula" args = None ∨ args_get "cedula" args = Some EmptyString)
    ∧ (status = 400 ↔ network_calls tr = [])
    ∧ (status ≠ 400 → head (requests_of tr) = Some step1_request)
    ∧ match args_get "cedula" args with
      | Some (String c s as cedula) =>
          run (check_fallecido cedula) w = Some (tr, w', inr body)
          ∧ status = (if decide (is_Some (body !! "error")) then 500 else 200)
      | Some EmptyString | None =>
          tr = [] ∧ w' = w
          ∧ body = {[ "error" := VStr "Missing 'cedula' parameter" ]}
      end.
Proof.
  unfold check_cedula.
  destruct (args_get "cedula" args) as [[|a s]|] eqn:Hget.
  - eexists [], w, _, 400. split; [reflexivity|]. split; [by left|].
    split; [by split; [right|]|]. split; [done|]. split; done.
  - destruct (run_check_fallecido BeautifulSoup send connect w (String a s))
      as (tr & w' & r & Hnav & Hrun).
    destruct (run_get_tse_details_html BeautifulSoup send connect w (String a s))
      as (tr0 & s' & r0 & Hrun0 & Hp & _).
    rewrite Hnav in Hrun0. injection Hrun0 as -> -> ->.
    change (result ← check_fallecido (String a s);
            if decide (is_Some (result !! "error")) then mret (result, 500)
            else mret (result, 200))
      with (bind (check_fallecido (String a s))
              (λ result, if decide (is_Some (result !! "error"))
                         then Ret (result, 500) else Ret (result, 200))).
    rewrite run_bind, Hrun.
    assert (∃ c rest, network_calls tr0 = (length w, step1_request, c) :: rest)
      as (c & rest & Hcalls) by (inversion Hp; by eexists _, _).
    match goal with
    | |- context [decide ?P] => destruct (decide P) as [Herr|Herr]
    end; cbn; rewrite app_nil_r.
    + eexists _, _, _, 500. split; [reflexivity|]. split; [by right; right|].
      unfold requests_of.
      change (network_calls (_ :: _ :: _ :: tr0)) with (network_calls tr0).
      rewrite Hcalls. split; [split; [done|by intros [|]]|].
      split; [by split|]. split; [done|]. split; [done|].
      by rewrite decide_True.
    + eexists _, _, _, 200. split; [reflexivity|]. split; [by right; left|].
      unfold requests_of.
      change (network_calls (_ :: _ :: _ :: tr0)) with (network_calls tr0).
      rewrite Hcalls. split; [split; [done|by intros [|]]|].
      split; [by split|]. split; [done|]. split; [done|].
      by rewrite decide_False.
  - eexists [], w, _, 400. split; [reflexivity|]. split; [by left|].
    split; [by split; [left|]|]. split; [done|]. split; done.
Qed.

End FacadeFacts.

Lemma deceased_answer_is_grounded_witness :
  ∃ r1 t0 r2 t1 r3 soup e,
    network_calls (Mock.trace_of Mock.facade_run) =
      [(0%nat, step1_request, inr r1);
       (0%nat, step2_request "102920417" t0, inr r2);
       (0%nat, step3_request t1, inr r3)]
    ∧ response_tokens Mock.BeautifulSoup r1 = inr t0
    ∧ response_tokens Mock.BeautifulSoup r2 = inr t1
    ∧ raise_for_status r3 = inr ()
    ∧ Mock.BeautifulSoup (text r3) = inr soup
    ∧ Soup.find "span" "id" "lblfallecido" soup = Some e
    ∧ PyStr.upper (Soup.get_text_strip e) = "SI"
    ∧ ({[ "fallecido" := VBool true; "cedula" := VStr "102920417" ]} : gmap string Value)
      = {[ "fallecido" := VBool true; "cedula" := VStr "102920417" ]}.
Proof.
  refine (deceased_answer_is_grounded Mock.BeautifulSoup Mock.send Mock.connect
            [] "102920417" (Mock.trace_of Mock.facade_run)
            (Mock.store_of Mock.facade_run)
            {[ "fallecido" := VBool true; "cedula" := VStr "102920417" ]} true _ _).
  - vm_compute. reflexivity.
  - reflexivity.
Defined.

Example split_classes : PyStr.split " label  big " = ["label"; "big"].
Proof. reflexivity. Qed.

Example has_class_among : Soup.has_class "label" [("class", "big label")] = true.
Proof. reflexivity. Qed.

Example has_class_not_prefix : Soup.has_class "label" [("class", "labels")] = false.
Proof. reflexivity. Qed.

(** A label cell takes the next [td] as its value even when that one is
    a label cell itself. *)
Example parse_details_adjacent_labels :
  parse_details
    [Soup.Tag "td" [("class", "label")] [Soup.Text "A"];
     Soup.Tag "td" [("class", "label")] [Soup.Text "B"];
     Soup.Tag "td" [] [Soup.Text "1"]]
  = {[ "A" := "B"; "B" := "1" ]}.
Proof. vm_compute. reflexivity. Qed.

(** ** Text outside ASCII *)

Example decode_encode :
  Utf8.decode "Ver Más" = [86; 101; 114; 32; 77; 225; 115]%N
  ∧ Utf8.encode [86; 101; 114; 32; 77; 225; 115]%N = "Ver Más".
Proof. split; vm_compute; reflexivity. Qed.

(** No-break spaces around the status are stripped like any white
    space. *)
Example read_SI_no_break_spaces :
  read_fallecido "102920417"
    (Mock.status_page [Soup.Text (Utf8.encode [160; 83; 73; 160]%N)])
  = {[ "fallecido" := VBool true; "cedula" := VStr "102920417" ]}.
Proof. vm_compute. reflexivity. Qed.

(** The dotless i is a lowercase of I: the status "s" followed by U+0131
    reads "SI". *)
Example read_s_dotless_i :
  read_fallecido "102920417"
    (Mock.status_page [Soup.Text (Utf8.encode [115; 305]%N)])
  = {[ "fallecido" := VBool true; "cedula" := VStr "102920417" ]}.
Proof. vm_compute. reflexivity. Qed.

(** An accented status is uppercased with its accent and reported. *)
Example read_si_acute :
  read_fallecido "102920417"
    (Mock.status_page [Soup.Text (Utf8.encode [115; 237]%N)])
  = {[ "error" := VStr ("Unknown value for Fallecido/a: " +:+ Utf8.encode [83; 205]%N) ]}.
Proof. vm_compute. reflexivity. Qed.

Example upper_sharp_s : PyStr.upper "straße" = "STRASSE".
Proof. vm_compute. reflexivity. Qed.

Example strip_ideographic_space :
  PyStr.strip (Utf8.encode [12288; 65; 32; 66; 8195]%N) = "A B".
Proof. vm_compute. reflexivity. Qed.

(** A class attribute whose names are separated by a no-break space, and
    a cell padded with them. *)
Example parse_details_no_break_spaces :
  parse_details
    [Soup.Tag "td" [("class", "label" +:+ Utf8.encode [160]%N +:+ "big")]
       [Soup.Text ("Nombre:" +:+ Utf8.encode [160]%N)];
     Soup.Tag "td" [] [Soup.Text (Utf8.encode [160]%N +:+ "ANA")]]
  = {[ "Nombre:" := "ANA" ]}.
Proof. vm_compute. reflexivity. Qed.
